(** * Yatra travel-planning backend: the request handlers of
    [server/server.js], [server/routes/auth.js] and [server/routes/user.js],
    embedded as Rocq functions, and the properties of the specification
    checked against them.

    JavaScript numbers are IEEE 754 binary64 values and are modelled by the
    kernel's primitive floats, so that [*], [+] and [/] round exactly as the
    program's do.  JavaScript objects used as look-up tables are finite maps
    with the inherited members of [Object.prototype] made explicit.  A
    handler is a function of the store, of what the request draws from its
    surroundings (clock, salt, new ObjectId, the network's answer) and of
    the request; it returns what it answered and the store it left.

    The first part is the model; the second part states and proves the
    properties; the third part runs the theorems on concrete requests. *)

From Stdlib Require Import ZArith NArith Floats Ascii String List Bool Lia.
From Stdlib Require Import DecimalString DecimalN.
From stdpp Require Import base option strings gmap sorting.
Import ListNotations.

Local Open Scope Z_scope.
Local Open Scope string_scope.

(** ** JavaScript values *)

(** Built-in objects that the program can reach through a property read on
    one of its object literals: [Object.prototype] itself (through
    [__proto__]), and the functions it carries. *)
Inductive builtin : Type :=
| ObjectPrototype
| ObjectConstructor
| PrototypeMethod (name : string).

#[warnings="-register-all"]
Inductive value : Type :=
| VUndefined
| VNull
| VBool (b : bool)
| VNum (n : float)
| VStr (s : string)
| VArray (elems : list value)
| VObject (props : gmap string value)
| VBuiltin (b : builtin)
| VObjectId (id : N)
| VDate (ms : N).

(** What a JavaScript expression evaluates to: a value, or a thrown error. *)
Inductive error : Type :=
| TypeError
| CastError
| DuplicateKey
| IllegalArguments
| NetworkError
| JwtError (reason : string).

Inductive completion (A : Type) : Type :=
| Normal (a : A)
| Throw (e : error).
Arguments Normal {A} a.
Arguments Throw {A} e.

Definition bind {A B} (c : completion A) (k : A -> completion B) : completion B :=
  match c with
  | Normal a => k a
  | Throw e => Throw e
  end.

Declare Scope js_scope.
Delimit Scope js_scope with js.
Notation "'let*' x ':=' c 'in' k" := (bind c (fun x => k))
  (at level 10, x name, c at level 100, k at level 200) : js_scope.
Local Open Scope js_scope.

(** ** Numbers: from decimal text to binary64 *)

(** [m * 2^e], rounded to the nearest binary64 value, ties to even. *)
Definition float_of_scaled (m e : Z) : float :=
  SF2Prim (binary_normalize prec emax m e false).

(** The binary64 value nearest to [m * 10^e10], for [0 <= m].  For a
    negative exponent the quotient is taken with more than sixty guard bits
    and a sticky bit for the remainder, so that the rounding sees the exact
    quotient. *)
Definition decimal_value (m e10 : Z) : float :=
  if Z.eqb m 0 then PrimFloat.zero
  else if Z.leb 0 e10 then float_of_scaled (m * 10 ^ e10) 0
  else
    let d := 10 ^ (- e10) in
    let k := Z.max 0 (Z.log2 d - Z.log2 m + 64) in
    let n := m * 2 ^ k in
    let sticky := if Z.eqb (n mod d) 0 then 0 else 1 in
    float_of_scaled (2 * (n / d) + sticky) (- k - 1).

Definition code (c : ascii) : nat := nat_of_ascii c.

Definition is_digit (c : ascii) : bool :=
  Nat.leb 48 (code c) && Nat.leb (code c) 57.

Definition digit_value (c : ascii) : Z := Z.of_nat (code c) - 48.

(** Value of a digit in a base up to sixteen, when [c] is such a digit. *)
Definition radix_digit (base : Z) (c : ascii) : option Z :=
  let n := code c in
  let v := if is_digit c then Some (digit_value c)
           else if Nat.leb 97 n && Nat.leb n 102 then Some (Z.of_nat n - 87)
           else if Nat.leb 65 n && Nat.leb n 70 then Some (Z.of_nat n - 55)
           else None in
  match v with
  | Some d => if Z.ltb d base then Some d else None
  | None => None
  end.

(** The longest run of decimal digits at the head of [s]: its value on top
    of [acc], the number of digits on top of [n], and the rest. *)
Fixpoint take_digits (s : string) (acc n : Z) : Z * Z * string :=
  match s with
  | String c r =>
      if is_digit c then take_digits r (10 * acc + digit_value c) (n + 1)
      else (acc, n, s)
  | EmptyString => (acc, n, s)
  end.

Fixpoint take_radix_digits (base : Z) (s : string) (acc n : Z) : Z * Z * string :=
  match s with
  | String c r =>
      match radix_digit base c with
      | Some d => take_radix_digits base r (base * acc + d) (n + 1)
      | None => (acc, n, s)
      end
  | EmptyString => (acc, n, s)
  end.

(** [strip_prefix p s] is what follows [p] in [s], when [s] starts with [p]. *)
Fixpoint strip_prefix (p s : string) : option string :=
  match p, s with
  | EmptyString, _ => Some s
  | String a p', String b s' => if Ascii.eqb a b then strip_prefix p' s' else None
  | String _ _, EmptyString => None
  end.

(** ExponentPart, when one is there: [e] or [E], an optional sign, digits. *)
Definition exponent_part (s : string) : Z * string :=
  match s with
  | String c r =>
      if Ascii.eqb c "e" || Ascii.eqb c "E" then
        let '(neg, r') :=
          match r with
          | String "+" r1 => (false, r1)
          | String "-" r1 => (true, r1)
          | _ => (false, r)
          end in
        let '(v, n, rest) := take_digits r' 0 0 in
        if Z.eqb n 0 then (0, s) else (if neg then - v else v, rest)
      else (0, s)
  | EmptyString => (0, s)
  end.

(** The longest prefix of [s] that is a StrUnsignedDecimalLiteral, as its
    value and the text after it. *)
Definition unsigned_decimal (s : string) : option (float * string) :=
  match strip_prefix "Infinity" s with
  | Some r => Some (PrimFloat.infinity, r)
  | None =>
      let '(ip, ni, r1) := take_digits s 0 0 in
      let '(m, nf, r2) :=
        match r1 with
        | String "." r =>
            let '(m, n, r') := take_digits r ip 0 in
            if Z.eqb ni 0 && Z.eqb n 0 then (ip, 0, r1) else (m, n, r')
        | _ => (ip, 0, r1)
        end in
      if Z.eqb ni 0 && Z.eqb nf 0 then None
      else let '(e, r3) := exponent_part r2 in
           Some (decimal_value m (e - nf), r3)
  end.

Definition str_decimal_literal (s : string) : option (float * string) :=
  match s with
  | String "+" r => unsigned_decimal r
  | String "-" r =>
      match unsigned_decimal r with
      | Some (x, r') => Some (PrimFloat.opp x, r')
      | None => None
      end
  | _ => unsigned_decimal s
  end.

(** NonDecimalIntegerLiteral: [0x], [0o] or [0b] and at least one digit. *)
Definition non_decimal_literal (s : string) : option (float * string) :=
  match s with
  | String "0" (String c r) =>
      let base :=
        if Ascii.eqb c "x" || Ascii.eqb c "X" then Some 16
        else if Ascii.eqb c "o" || Ascii.eqb c "O" then Some 8
        else if Ascii.eqb c "b" || Ascii.eqb c "B" then Some 2
        else None in
      match base with
      | Some b =>
          let '(v, n, rest) := take_radix_digits b r 0 0 in
          if Z.eqb n 0 then None else Some (float_of_scaled v 0, rest)
      | None => None
      end
  | _ => None
  end.

(** One leading WhiteSpace or LineTerminator character removed; strings are
    UTF-8, so U+00A0, U+1680, U+2000..U+200A, U+2028, U+2029, U+202F,
    U+205F, U+3000 and U+FEFF take two or three bytes. *)
Definition strip_white_space (s : string) : option string :=
  match s with
  | String c r =>
      let n := code c in
      if Nat.leb 9 n && Nat.leb n 13 || Nat.eqb n 32 then Some r
      else
        match r with
        | String c2 r2 =>
            let n2 := code c2 in
            if Nat.eqb n 194 && Nat.eqb n2 160 then Some r2
            else
              match r2 with
              | String c3 r3 =>
                  let n3 := code c3 in
                  if Nat.eqb n 225 && Nat.eqb n2 154 && Nat.eqb n3 128
                     || Nat.eqb n 226 && Nat.eqb n2 128
                        && (Nat.leb 128 n3 && Nat.leb n3 138
                            || Nat.eqb n3 168 || Nat.eqb n3 169 || Nat.eqb n3 175)
                     || Nat.eqb n 226 && Nat.eqb n2 129 && Nat.eqb n3 159
                     || Nat.eqb n 227 && Nat.eqb n2 128 && Nat.eqb n3 128
                     || Nat.eqb n 239 && Nat.eqb n2 187 && Nat.eqb n3 191
                  then Some r3 else None
              | EmptyString => None
              end
        | EmptyString => None
        end
  | EmptyString => None
  end.

Fixpoint trim_start_fuel (fuel : nat) (s : string) : string :=
  match fuel with
  | O => s
  | S f =>
      match strip_white_space s with
      | Some r => trim_start_fuel f r
      | None => s
      end
  end.

Definition trim_start (s : string) : string :=
  trim_start_fuel (String.length s) s.

Definition is_empty (s : string) : bool :=
  match s with EmptyString => true | String _ _ => false end.

Definition all_white_space (s : string) : bool := is_empty (trim_start s).

(** StringToNumber: the whole text, white space apart, must be a numeric
    literal; the empty text is zero. *)
Definition string_to_number (s : string) : float :=
  let t := trim_start s in
  if is_empty t then PrimFloat.zero
  else
    let parsed :=
      match non_decimal_literal t with
      | Some r => Some r
      | None => str_decimal_literal t
      end in
    match parsed with
    | Some (x, rest) => if all_white_space rest then x else PrimFloat.nan
    | None => PrimFloat.nan
    end.

(** The global [parseFloat] on a text: white space skipped, then the longest
    decimal literal that starts the text; [NaN] when there is none. *)
Definition parse_float_string (s : string) : float :=
  match str_decimal_literal (trim_start s) with
  | Some (x, _) => x
  | None => PrimFloat.nan
  end.

(** ** The host: what the engine and the libraries provide *)

(** A MongoDB ObjectId. *)
Definition oid : Type := N.

Definition opt_value {A} (inj : A -> value) (o : option A) : value :=
  match o with
  | Some a => inj a
  | None => VUndefined
  end.

(** The payload of a verified token: [{ id, iat, exp }], times in seconds. *)
Record claims : Type := { claim_id : oid; claim_iat : N; claim_exp : N }.

(** What the program takes from outside the repository and what is left
    open here is a field of the host, and every property below holds for
    every host: the engine's rendering of numbers, functions, ObjectIds and
    dates as text, the members of built-in objects other than
    [Object.prototype], what a built-in function other than
    [Object.prototype.toString] and [Object.prototype.valueOf] returns when
    a conversion calls it on an object, the two cryptographic digests,
    Mongoose's casting of values that are not already of the schema's type
    and of query filters that are not texts, and what the token library
    does with a token when no secret is configured. *)
Record host : Type := {
  number_to_string : float -> string;
  object_to_string : value -> string;
  host_get : value -> string -> completion value;
  host_call : value -> value -> completion value;
  hmac_sha256 : string -> string -> string;
  bcrypt_digest : N -> string -> string -> string;
  cast_string_other : value -> completion (option string);
  cast_number_other : value -> completion (option float);
  query_cast : value -> completion (option string -> bool);
  verify_unkeyed : string -> completion claims
}.

(** The own members of [Object.prototype] that are functions. *)
Definition object_prototype_methods : list string :=
  [ "toString"; "toLocaleString"; "valueOf"; "hasOwnProperty";
    "isPrototypeOf"; "propertyIsEnumerable"; "__defineGetter__";
    "__defineSetter__"; "__lookupGetter__"; "__lookupSetter__" ].

(** A read of [k] that reaches [Object.prototype]; [proto] is the prototype
    of the object the read started from, which the [__proto__] accessor
    returns. *)
Definition object_prototype_member (proto : value) (k : string) : value :=
  if String.eqb k "__proto__" then proto
  else if String.eqb k "constructor" then VBuiltin ObjectConstructor
  else if existsb (String.eqb k) object_prototype_methods
       then VBuiltin (PrototypeMethod k)
  else VUndefined.

(** A canonical array index: [0], or digits that do not start with [0]. *)
Definition array_index (k : string) : option nat :=
  match k with
  | EmptyString => None
  | String "0" EmptyString => Some O
  | String "0" _ => None
  | _ =>
      let '(v, _, rest) := take_digits k 0 0 in
      if is_empty rest then Some (Z.to_nat v) else None
  end.

Fixpoint join (sep : string) (l : list string) : string :=
  match l with
  | [] => ""
  | [s] => s
  | s :: r => s ++ sep ++ join sep r
  end.

(** The members of a plain object: its own, then those of its prototype,
    which is [Object.prototype]. *)
Definition member (props : gmap string value) (k : string) : value :=
  match props !! k with
  | Some v => v
  | None => object_prototype_member (VBuiltin ObjectPrototype) k
  end.

(** The own member [k] of a plain object, if it has one. *)
Definition own (o : value) (k : string) : option value :=
  match o with
  | VObject props => props !! k
  | _ => None
  end.

Section Engine.

Variable h : host.

(** ToString and ToNumber of a value that is not an object; [None] for an
    object. *)
Definition primitive_to_string (v : value) : option string :=
  match v with
  | VUndefined => Some "undefined"
  | VNull => Some "null"
  | VBool true => Some "true"
  | VBool false => Some "false"
  | VNum n => Some (number_to_string h n)
  | VStr s => Some s
  | _ => None
  end.

Definition primitive_to_number (v : value) : option float :=
  match v with
  | VUndefined => Some PrimFloat.nan
  | VNull => Some PrimFloat.zero
  | VBool true => Some PrimFloat.one
  | VBool false => Some PrimFloat.zero
  | VNum n => Some n
  | VStr s => Some (string_to_number s)
  | _ => None
  end.

(** IsCallable: of the values here, the built-in functions. *)
Definition is_callable (v : value) : bool :=
  match v with
  | VBuiltin ObjectConstructor | VBuiltin (PrototypeMethod _) => true
  | _ => false
  end.

(** [f.call(this)] without arguments, for a plain object [this]:
    [Object.prototype.toString] gives [[object Object]] and
    [Object.prototype.valueOf] gives the object itself. *)
Definition call_method (f this : value) : completion value :=
  match f with
  | VBuiltin (PrototypeMethod name) =>
      if String.eqb name "toString" then Normal (VStr "[object Object]")
      else if String.eqb name "valueOf" then Normal this
      else host_call h f this
  | _ => host_call h f this
  end.

(** One step of OrdinaryToPrimitive on a plain object: the member [name]
    is read, own members first; when it is callable it is called, and its
    result counts when it is not an object. *)
Definition try_method {A : Type} (convert : value -> option A)
    (props : gmap string value) (name : string) : completion (option A) :=
  let f := member props name in
  if is_callable f then
    let* r := call_method f (VObject props) in
    Normal (convert r)
  else Normal None.

(** OrdinaryToPrimitive on a plain object, followed by the conversion of
    the primitive value: the two methods are tried in the order of the
    hint, and a TypeError is thrown when neither gives a primitive value.
    So an object with an own member [toString] that is not a function (as
    in the JSON text [{"toString":1}]) cannot be converted. *)
Definition ordinary_to_primitive {A : Type} (convert : value -> option A)
    (props : gmap string value) (first second : string) : completion A :=
  let* r := try_method convert props first in
  match r with
  | Some a => Normal a
  | None =>
      let* r' := try_method convert props second in
      match r' with
      | Some a => Normal a
      | None => Throw TypeError
      end
  end.

(** ToString.  An array joins the texts of its elements, [null] and
    [undefined] as the empty text, and throws when an element does. *)
Fixpoint to_string (v : value) : completion string :=
  match v with
  | VUndefined => Normal "undefined"
  | VNull => Normal "null"
  | VBool true => Normal "true"
  | VBool false => Normal "false"
  | VNum n => Normal (number_to_string h n)
  | VStr s => Normal s
  | VArray l =>
      let* parts :=
        (fix each (l : list value) : completion (list string) :=
           match l with
           | [] => Normal []
           | x :: r =>
               let* s := match x with
                         | VUndefined | VNull => Normal ""
                         | _ => to_string x
                         end in
               let* rest := each r in
               Normal (s :: rest)
           end) l in
      Normal (join "," parts)
  | VObject props => ordinary_to_primitive primitive_to_string props "toString" "valueOf"
  | VBuiltin ObjectPrototype => Normal "[object Object]"
  | VBuiltin _ | VObjectId _ | VDate _ => Normal (object_to_string h v)
  end.

(** ToNumber. *)
Definition to_number (v : value) : completion float :=
  match v with
  | VUndefined => Normal PrimFloat.nan
  | VNull => Normal PrimFloat.zero
  | VBool true => Normal PrimFloat.one
  | VBool false => Normal PrimFloat.zero
  | VNum n => Normal n
  | VStr s => Normal (string_to_number s)
  | VDate ms => Normal (float_of_scaled (Z.of_N ms) 0)
  | VObject props => ordinary_to_primitive primitive_to_number props "valueOf" "toString"
  | _ => let* s := to_string v in Normal (string_to_number s)
  end.

(** ToBoolean. *)
Definition to_boolean (v : value) : bool :=
  match v with
  | VUndefined | VNull => false
  | VBool b => b
  | VNum n => negb (PrimFloat.is_zero n || PrimFloat.is_nan n)
  | VStr s => negb (is_empty s)
  | VArray _ | VObject _ | VBuiltin _ | VObjectId _ | VDate _ => true
  end.

(** [parseFloat(v)]: ToString, then the longest decimal literal. *)
Definition parseFloat (v : value) : completion float :=
  let* s := to_string v in
  Normal (parse_float_string s).

(** [o.k]: own members first, then the prototype chain. *)
Definition get (o : value) (k : string) : completion value :=
  match o with
  | VUndefined | VNull => Throw TypeError
  | VObject props => Normal (member props k)
  | VBuiltin ObjectPrototype => Normal (object_prototype_member VNull k)
  | VArray l =>
      match array_index k with
      | Some i => Normal (nth i l VUndefined)
      | None => host_get h o k
      end
  | _ => host_get h o k
  end.

(** [o[key]]: the key goes through ToPropertyKey. *)
Definition get_computed (o key : value) : completion value :=
  let* k := to_string key in
  get o k.

(** [a * b] and [a / b] on any two values: the left operand is converted
    first. *)
Definition js_mul (a b : value) : completion float :=
  let* x := to_number a in
  let* y := to_number b in
  Normal (PrimFloat.mul x y).
Definition js_div (a b : value) : completion float :=
  let* x := to_number a in
  let* y := to_number b in
  Normal (PrimFloat.div x y).

(** [a || b]. *)
Definition js_or (a b : value) : value := if to_boolean a then a else b.

(** [o?.k]. *)
Definition get_optional (o : value) (k : string) : completion value :=
  match o with
  | VUndefined | VNull => Normal VUndefined
  | _ => get o k
  end.

End Engine.

(** ** Express: what a handler leaves behind *)

Record response : Type := { status : nat; body : value }.

(** A handler either writes a response, or its promise rejects outside any
    [try]; Express 4 does not look at the promise of a handler, so nothing
    is written then. *)
Inductive outcome : Type :=
| Sent (r : response)
| Unanswered (e : error).

Definition obj (l : list (string * value)) : value := VObject (list_to_map l).

(** A Mongoose document as [res.json] receives it: the members it has. *)
Definition document (l : list (string * value)) : value :=
  obj (List.filter (fun kv => match snd kv with VUndefined => false | _ => true end) l).

Definition json (code : nat) (l : list (string * value)) : outcome :=
  Sent {| status := code; body := obj l |}.

(** Own member [k] of a response body, [undefined] when there is none. *)
Definition field (k : string) (v : value) : value := default VUndefined (own v k).

(** The names of the own members of a response body. *)
Definition member_names (v : value) : gset string :=
  match v with
  | VObject m => dom m
  | _ => ∅
  end.

(** ** POST /calculate-budget (server.js) *)

Definition pricing : value :=
  obj [ ("Mid-Range", obj [ ("hotelCostPerNight", VNum 1500); ("foodCostPerDay", VNum 600) ]);
        ("Luxury", obj [ ("hotelCostPerNight", VNum 3000); ("foodCostPerDay", VNum 1200) ]) ].

Definition transportPricing : value :=
  obj [ ("Bus", obj [ ("Ordinary State Bus", VNum 2);
                      ("Volvo Non-AC", VNum 3.5);
                      ("AC Bus", VNum 5) ]);
        ("Train", obj [ ("Sleeper", VNum 1.5);
                        ("AC 3 Tier", VNum 3);
                        ("AC 2 Tier", VNum 4.5);
                        ("AC First Class", VNum 7) ]);
        ("Flight", obj [ ("Economy", VNum 8);
                         ("Business", VNum 15);
                         ("First Class", VNum 25) ]) ].

(** One outbound HTTP GET: the address and the query parameters. *)
Record call : Type := { url : string; params : list (string * value) }.

(** The network as the handler sees it: for a GET, either [response.data]
    or a failure of the transport (axios rejects). *)
Definition network : Type := call -> completion value.

Definition distance_matrix_url : string :=
  "https://maps.googleapis.com/maps/api/distancematrix/json".

Section Budget.

Variable h : host.
Variable net : network.
Variable GOOGLE_MAPS_API_KEY : value.

Definition distance_error : outcome :=
  json 500 [ ("error", VStr "Error fetching distance data.") ].

Definition invalid_budget : outcome :=
  json 400 [ ("error", VStr "Invalid budget level or transportation type.") ].

(** [response.data.rows[0].elements[0].distance?.value || 0] *)
Definition extract_distance (data : value) : completion value :=
  let* rows := get h data "rows" in
  let* row := get h rows "0" in
  let* elements := get h row "elements" in
  let* element := get h elements "0" in
  let* distance := get h element "distance" in
  let* v := get_optional h distance "value" in
  Normal (js_or v (VNum 0)).

(** The body of the [try] block once the distance is known; a conversion
    that throws ends it. *)
Definition breakdown (travelers nights shoppingAmount : value)
    (hotelCostPerNight foodCostPerDay perKmRate : value) (distance : value)
  : completion outcome :=
  let* distanceKm := js_div h distance (VNum 1000) in
  let* perTraveler := js_mul h travelers (VNum distanceKm) in
  let* transportationCost := js_mul h (VNum perTraveler) perKmRate in
  let* days := js_mul h travelers nights in
  let* foodCost := js_mul h (VNum days) foodCostPerDay in
  let* shoppingCost :=
    if to_boolean shoppingAmount then parseFloat h shoppingAmount
    else Normal PrimFloat.zero in
  let* stays := js_mul h travelers nights in
  let* hotelCost := js_mul h (VNum stays) hotelCostPerNight in
  let totalCost :=
    PrimFloat.add (PrimFloat.add (PrimFloat.add transportationCost foodCost) shoppingCost)
                  hotelCost in
  Normal (json 200 [ ("distanceInKm", VNum distanceKm);
                     ("transportationCost", VNum transportationCost);
                     ("foodCost", VNum foodCost);
                     ("shoppingCost", VNum shoppingCost);
                     ("hotelCost", VNum hotelCost);
                     ("totalCost", VNum totalCost) ]).

(** The handler: the calls it made on the network, in order, and what it
    left behind. *)
Definition calculate_budget_run (req_body : value) : completion (list call * outcome) :=
  let* startingPoint := get h req_body "startingPoint" in
  let* destination := get h req_body "destination" in
  let* nights := get h req_body "nights" in
  let* travelers := get h req_body "travelers" in
  let* budgetLevel := get h req_body "budgetLevel" in
  let* transportMode := get h req_body "transportMode" in
  let* transportSubtype := get h req_body "transportSubtype" in
  let* shoppingAmount := get h req_body "shoppingAmount" in
  let* level := get_computed h pricing budgetLevel in
  if negb (to_boolean level) then Normal ([], invalid_budget) else
  let* mode := get_computed h transportPricing transportMode in
  if negb (to_boolean mode) then Normal ([], invalid_budget) else
  let* rate := get_computed h mode transportSubtype in
  if negb (to_boolean rate) then Normal ([], invalid_budget) else
  let* hotelCostPerNight := get h level "hotelCostPerNight" in
  let* foodCostPerDay := get h level "foodCostPerDay" in
  let perKmRate := rate in
  let request :=
    {| url := distance_matrix_url;
       params := [ ("origins", startingPoint); ("destinations", destination);
                   ("key", GOOGLE_MAPS_API_KEY) ] |} in
  Normal ([request],
          match (let* data := net request in
                 let* distance := extract_distance data in
                 breakdown travelers nights shoppingAmount
                           hotelCostPerNight foodCostPerDay perKmRate distance) with
          | Normal answer => answer
          | Throw _ => distance_error
          end).

Definition calculate_budget (req_body : value) : list call * outcome :=
  match calculate_budget_run req_body with
  | Normal r => r
  | Throw e => ([], Unanswered e)
  end.

End Budget.

(** ** POST /get-places (server.js, lines 167-201) *)

Definition places_url : string :=
  "https://maps.googleapis.com/maps/api/place/textsearch/json".

Definition photo_url_prefix : string :=
  "https://maps.googleapis.com/maps/api/place/photo?maxwidth=400&photoreference=".

Definition destination_required : outcome :=
  json 400 [ ("error", VStr "Destination is required.") ].

Definition places_failed : outcome :=
  json 500 [ ("error", VStr "Failed to fetch places data. Please check your Google API key and settings.") ].

Definition places_error : outcome :=
  json 500 [ ("error", VStr "Error fetching places data.") ].

(** [v === s] for a text [s]. *)
Definition is_string (s : string) (v : value) : bool :=
  match v with
  | VStr t => String.eqb t s
  | _ => false
  end.

(** A callback applied to the elements of a list in order; the first
    throw ends it. *)
Fixpoint map_completion {A B : Type} (f : A -> completion B) (l : list A)
  : completion (list B) :=
  match l with
  | [] => Normal []
  | a :: r =>
      let* b := f a in
      let* bs := map_completion f r in
      Normal (b :: bs)
  end.

(** [v.map(f)].  An array that JSON yields has no holes, so [f] sees every
    element; no other value that JSON yields has a callable [map], and the
    call is a TypeError. *)
Definition array_map (f : value -> completion value) (v : value) : completion value :=
  match v with
  | VArray l =>
      let* l' := map_completion f l in
      Normal (VArray l')
  | _ => Throw TypeError
  end.

Section Places.

Variable h : host.
Variable net : network.
Variable GOOGLE_MAPS_API_KEY : value.

(** The callback of [results.map]: one summary per place. *)
Definition place_summary (place : value) : completion value :=
  let* name := get h place "name" in
  let* address := get h place "formatted_address" in
  let* rating := get h place "rating" in
  let* photos := get h place "photos" in
  let* photo :=
    if to_boolean photos then
      let* first := get h photos "0" in
      let* photo_reference := get h first "photo_reference" in
      let* reference := to_string h photo_reference in
      let* key := to_string h GOOGLE_MAPS_API_KEY in
      Normal (VStr (photo_url_prefix ++ reference ++ "&key=" ++ key))
    else Normal VNull in
  Normal (obj [ ("name", name); ("address", address); ("rating", rating);
                ("photo", photo) ]).

(** The request the handler sends to the places service, for the text
    that the destination converts to. *)
Definition places_request (destination : string) : call :=
  {| url := places_url;
     params := [ ("query", VStr ("Tourist attractions in " ++ destination));
                 ("key", GOOGLE_MAPS_API_KEY) ] |}.

(** The body of the [try] block once the service has answered. *)
Definition places_of (data : value) : completion outcome :=
  let* status := get h data "status" in
  if negb (is_string "OK" status) then Normal places_failed
  else
    let* results := get h data "results" in
    let* places := array_map place_summary results in
    Normal (Sent {| status := 200; body := places |}).

(** The template literal of the query is evaluated inside the [try],
    before the request is made: when the destination cannot be converted
    to a text, nothing is sent. *)
Definition get_places_run (req_body : value) : completion (list call * outcome) :=
  let* destination := get h req_body "destination" in
  if negb (to_boolean destination) then Normal ([], destination_required)
  else
    match to_string h destination with
    | Throw _ => Normal ([], places_error)
    | Normal text =>
        Normal ([places_request text],
                match (let* data := net (places_request text) in places_of data) with
                | Normal answer => answer
                | Throw _ => places_error
                end)
    end.

Definition get_places (req_body : value) : list call * outcome :=
  match get_places_run req_body with
  | Normal r => r
  | Throw e => ([], Unanswered e)
  end.

End Places.

(** ** Text helpers *)

(** [s.split(sep)] for a one-character separator. *)
Fixpoint split_on (sep : ascii) (s : string) : list string :=
  match s with
  | EmptyString => [""]
  | String c r =>
      if Ascii.eqb c sep then "" :: split_on sep r
      else match split_on sep r with
           | p :: ps => String c p :: ps
           | [] => [String c ""]
           end
  end.

Fixpoint occurs (c : ascii) (s : string) : bool :=
  match s with
  | EmptyString => false
  | String a r => Ascii.eqb a c || occurs c r
  end.

(** Decimal text of a natural number, and back. *)
Definition show_N (n : N) : string := NilEmpty.string_of_uint (N.to_uint n).

Definition parse_N (s : string) : option N :=
  match NilEmpty.uint_of_string s with
  | Some d => Some (N.of_uint d)
  | None => None
  end.

Definition hex_digit (n : nat) : ascii :=
  nth n [ "0"; "1"; "2"; "3"; "4"; "5"; "6"; "7"; "8"; "9";
          "a"; "b"; "c"; "d"; "e"; "f" ]%char "0"%char.

(** Every byte as two hexadecimal digits. *)
Fixpoint base16 (s : string) : string :=
  match s with
  | EmptyString => ""
  | String c r =>
      String (hex_digit (code c / 16)) (String (hex_digit (code c mod 16)) (base16 r))
  end.

(** ** bcryptjs *)

(** The library is not part of the repository; it is modelled by what its
    documentation promises.  A bcrypt hash is the cost, the salt, and the
    digest of the password under them; the library prints the three in one
    text of sixty characters.  Both functions reject a password that is not
    a text. *)
Record pwhash : Type := { ph_cost : N; ph_salt : string; ph_digest : string }.

(** [bcrypt.hash(s, rounds)], [salt] being the salt the library drew. *)
Definition bcrypt_hash (h : host) (salt : string) (s : value) (rounds : N)
  : completion pwhash :=
  match s with
  | VStr pw =>
      Normal {| ph_cost := rounds; ph_salt := salt;
                ph_digest := bcrypt_digest h rounds salt pw |}
  | _ => Throw IllegalArguments
  end.

(** [bcrypt.compare(s, hash)] *)
Definition bcrypt_compare (h : host) (s : value) (hash : pwhash) : completion bool :=
  match s with
  | VStr pw =>
      Normal (String.eqb (bcrypt_digest h (ph_cost hash) (ph_salt hash) pw) (ph_digest hash))
  | _ => Throw IllegalArguments
  end.

(** ** jsonwebtoken *)

(** The library is not part of the repository; it is modelled by what its
    documentation promises.  A token is three segments joined by dots: the
    algorithm, the claims, and the armoured MAC of the first two under the
    secret.  Decimal text stands for the library's base64url of JSON: like
    it, it has neither a space nor a dot. *)
Definition jwt_algorithm : string := "HS256".

Definition encode_claims (c : claims) : string :=
  show_N (claim_id c) ++ "," ++ show_N (claim_iat c) ++ "," ++ show_N (claim_exp c).

Definition decode_claims (s : string) : option claims :=
  match split_on "," s with
  | [a; b; c] =>
      match parse_N a, parse_N b, parse_N c with
      | Some i, Some t, Some e => Some {| claim_id := i; claim_iat := t; claim_exp := e |}
      | _, _, _ => None
      end
  | _ => None
  end.

Definition jwt_signature (h : host) (secret signing_input : string) : string :=
  base16 (hmac_sha256 h secret signing_input).

(** The claims of a token for [id] issued at [t] milliseconds for one hour:
    [iat] is the clock in whole seconds, [exp] is 3600 seconds later. *)
Definition issued_claims (t : N) (id : oid) : claims :=
  {| claim_id := id; claim_iat := (t / 1000)%N; claim_exp := (t / 1000 + 3600)%N |}.

(** The part of the token that the MAC covers. *)
Definition signing_input (t : N) (id : oid) : string :=
  jwt_algorithm ++ "." ++ encode_claims (issued_claims t id).

(** [jwt.sign({ id }, secret, { expiresIn: '1h' })] at [now] milliseconds. *)
Definition jwt_sign (h : host) (now : N) (id : oid) (secret : string) : completion string :=
  if is_empty secret then Throw (JwtError "secretOrPrivateKey must have a value")
  else Normal (signing_input now id ++ "." ++ jwt_signature h secret (signing_input now id)).

(** [jwt.verify(token, secret)] at [now] milliseconds. *)
Definition jwt_verify (h : host) (now : N) (token secret : string) : completion claims :=
  match split_on "." token with
  | [alg; payload; signature] =>
      match decode_claims payload with
      | None => Throw (JwtError "invalid token")
      | Some c =>
          if is_empty secret then verify_unkeyed h token
          else if negb (String.eqb alg jwt_algorithm) then Throw (JwtError "invalid algorithm")
          else if negb (String.eqb signature (jwt_signature h secret (alg ++ "." ++ payload)))
               then Throw (JwtError "invalid signature")
          else if N.leb (claim_exp c) (now / 1000) then Throw (JwtError "jwt expired")
          else Normal c
      end
  | _ => Throw (JwtError "jwt malformed")
  end.

(** ** The two Mongoose models *)

(** [userSchema]: name, email (unique), password.  [travelHistory] is the
    legacy member that routes/auth.js reads; [None] in a field is a member
    that the document does not have. *)
Record user : Type := {
  user_id : oid;
  user_name : option string;
  user_email : option string;
  user_password : pwhash;
  user_travelHistory : value
}.

(** [travelSchema]: userId, destination, budget, date (milliseconds), nights. *)
Record travel : Type := {
  travel_id : oid;
  travel_userId : oid;
  travel_destination : option string;
  travel_budget : option float;
  travel_date : N;
  travel_nights : option float
}.

Record db : Type := { users : list user; travels : list travel }.

(** What a request draws from its surroundings: the clock in milliseconds,
    the salt bcrypt generates, and the ObjectId of a new document. *)
Record world : Type := { now : N; salt : string; fresh : oid }.

Definition option_string_eqb (a b : option string) : bool :=
  match a, b with
  | Some x, Some y => String.eqb x y
  | None, None => true
  | _, _ => false
  end.

Section Mongoose.

Variable h : host.

(** Casting a value to a [String] path and to a [Number] path. *)
Definition cast_string (v : value) : completion (option string) :=
  match v with
  | VStr s => Normal (Some s)
  | VUndefined | VNull => Normal None
  | _ => cast_string_other h v
  end.

Definition cast_number (v : value) : completion (option float) :=
  match v with
  | VNum n => if PrimFloat.is_nan n then cast_number_other h v else Normal (Some n)
  | VUndefined | VNull => Normal None
  | _ => cast_number_other h v
  end.

(** [User.findOne({ email })] *)
Definition User_findOne (d : db) (email : value) : completion (option user) :=
  let* matches :=
    match email with
    | VStr s => Normal (fun e => option_string_eqb e (Some s))
    | _ => query_cast h email
    end in
  Normal (List.find (fun u => matches (user_email u)) (users d)).

(** [User.findById(id)] *)
Definition User_findById (d : db) (id : oid) : option user :=
  List.find (fun u => N.eqb (user_id u) id) (users d).

(** [new User({ name, email, password }).save()]: the fields are cast, and
    the unique index on [email] refuses a second document with the same
    key (a missing email is the key [null]). *)
Definition User_save (d : db) (id : oid) (name email : value) (password : pwhash)
  : completion db :=
  let* n := cast_string name in
  let* e := cast_string email in
  if existsb (fun u => option_string_eqb (user_email u) e) (users d)
  then Throw DuplicateKey
  else Normal {| users := users d ++ [ {| user_id := id; user_name := n; user_email := e;
                                           user_password := password;
                                           user_travelHistory := VUndefined |} ];
                 travels := travels d |}.

(** [new Travel({ userId, destination, budget, date, nights }).save()] *)
Definition Travel_save (d : db) (id userId : oid) (destination budget : value)
    (date : N) (nights : value) : completion db :=
  let* dest := cast_string destination in
  let* b := cast_number budget in
  let* n := cast_number nights in
  Normal {| users := users d;
            travels := travels d ++ [ {| travel_id := id; travel_userId := userId;
                                         travel_destination := dest; travel_budget := b;
                                         travel_date := date; travel_nights := n |} ] |}.

Definition newer_first (a b : travel) : Prop := (travel_date b <= travel_date a)%N.

#[global] Instance newer_first_dec : RelDecision newer_first.
Proof. intros a b. unfold newer_first. apply N.le_dec. Defined.

(** [Travel.find({ userId }).sort({ date: -1 })] *)
Definition Travel_find_sorted (d : db) (userId : oid) : list travel :=
  merge_sort newer_first
    (List.filter (fun t => N.eqb (travel_userId t) userId) (travels d)).

End Mongoose.

(** ** The handlers that use the store *)

Record request : Type := { authorization : option string; req_body : value }.

Definition all_fields_required : outcome :=
  json 400 [ ("error", VStr "All fields are required!") ].
Definition email_exists : outcome :=
  json 400 [ ("error", VStr "Email already exists!") ].
Definition invalid_credentials : outcome :=
  json 400 [ ("error", VStr "Invalid email or password!") ].
Definition internal_error : outcome :=
  json 500 [ ("error", VStr "Internal server error!") ].
Definition registered : outcome :=
  json 201 [ ("message", VStr "User registered successfully!") ].
Definition access_denied : outcome :=
  json 401 [ ("error", VStr "Access denied!") ].
Definition invalid_token : outcome :=
  json 403 [ ("error", VStr "Invalid token!") ].

(** A request that presents [token] as its bearer token. *)
Definition bearer (token : string) (b : value) : request :=
  {| authorization := Some ("Bearer " ++ token); req_body := b |}.

(** What the two login handlers answer on success: the token and the
    projection of the user they found (server.js, lines 100-104;
    routes/auth.js, lines 35-44). *)
Definition login_success (token : string) (u : user) : outcome :=
  json 200 [ ("message", VStr "Login successful!");
             ("token", VStr token);
             ("user", obj [ ("id", VObjectId (user_id u));
                            ("name", opt_value VStr (user_name u));
                            ("email", opt_value VStr (user_email u)) ]) ].

Definition router_login_success (token : string) (u : user) : outcome :=
  json 200 [ ("message", VStr "Login successful!");
             ("token", VStr token);
             ("user", obj [ ("id", VObjectId (user_id u));
                            ("username", opt_value VStr (user_name u));
                            ("email", opt_value VStr (user_email u));
                            ("travelHistory", js_or (user_travelHistory u) (VArray [])) ]) ].

(** A handler's promise that rejects outside any [try] leaves the store as
    it was and writes nothing. *)
Definition settle (d : db) (c : completion (outcome * db)) : outcome * db :=
  match c with
  | Normal r => r
  | Throw e => (Unanswered e, d)
  end.

(** [try { ... } catch (err) { res.status(...).json(...) }] around a block
    whose only write to the store is its last step. *)
Definition try_catch (d : db) (block : completion (outcome * db)) (caught : outcome)
  : outcome * db :=
  match block with
  | Normal r => r
  | Throw _ => (caught, d)
  end.

Section Server.

Variable h : host.
Variable JWT_SECRET : string.

(** *** The authentication gate (server.js, lines 50-61) *)

Definition authenticateToken (w : world) (req : request) : outcome + claims :=
  let token :=
    match authorization req with
    | Some a => nth_error (split_on " " a) 1
    | None => None
    end in
  match token with
  | None => inl access_denied
  | Some t =>
      if is_empty t then inl access_denied
      else match jwt_verify h (now w) t JWT_SECRET with
           | Normal decoded => inr decoded
           | Throw _ => inl invalid_token
           end
  end.

(** [app.METHOD(path, authenticateToken, handler)] *)
Definition authenticated (handler : claims -> db -> world -> request -> outcome * db)
    (d : db) (w : world) (req : request) : outcome * db :=
  match authenticateToken w req with
  | inl refused => (refused, d)
  | inr decoded => handler decoded d w req
  end.

(** *** POST /signup (server.js, lines 66-84) *)

Definition signup (d : db) (w : world) (req : request) : outcome * db :=
  settle d (
    let* name := get h (req_body req) "name" in
    let* email := get h (req_body req) "email" in
    let* password := get h (req_body req) "password" in
    if negb (to_boolean name) || negb (to_boolean email) || negb (to_boolean password)
    then Normal (all_fields_required, d)
    else Normal (try_catch d (
      let* existingUser := User_findOne h d email in
      match existingUser with
      | Some _ => Normal (email_exists, d)
      | None =>
          let* hashedPassword := bcrypt_hash h (salt w) password 10 in
          let* d' := User_save h d (fresh w) name email hashedPassword in
          Normal (registered, d')
      end) internal_error)).

(** *** POST /login (server.js, lines 87-109) *)

Definition login (d : db) (w : world) (req : request) : outcome * db :=
  settle d (
    let* email := get h (req_body req) "email" in
    let* password := get h (req_body req) "password" in
    if negb (to_boolean email) || negb (to_boolean password)
    then Normal (all_fields_required, d)
    else Normal (try_catch d (
      let* found := User_findOne h d email in
      match found with
      | None => Normal (invalid_credentials, d)
      | Some u =>
          let* isMatch := bcrypt_compare h password (user_password u) in
          if negb isMatch then Normal (invalid_credentials, d)
          else
            let* token := jwt_sign h (now w) (user_id u) JWT_SECRET in
            Normal (login_success token u, d)
      end) internal_error)).

(** *** POST /signup (routes/auth.js, lines 9-20) *)

(** Modelled from the spec: routes/auth.js and routes/user.js take [User]
    from [../models/User], which is not among the sources.  The
    specification gives the Credential Store one kind of record (name,
    email, password hash) with email uniqueness enforced at the store
    level, so that a duplicate signup fails and does not overwrite; that is
    [userSchema] of server.js, and the router's [save], [findOne] and
    [findById] are taken to be those of that schema. *)
Definition RouterUser_save : db -> oid -> value -> value -> pwhash -> completion db :=
  User_save h.

(** The password is hashed before the [try]; whatever [save] throws is
    answered as a duplicate email. *)
Definition router_signup (d : db) (w : world) (req : request) : outcome * db :=
  settle d (
    let* name := get h (req_body req) "name" in
    let* email := get h (req_body req) "email" in
    let* password := get h (req_body req) "password" in
    let* hashedPassword := bcrypt_hash h (salt w) password 10 in
    Normal (try_catch d (
      let* d' := RouterUser_save d (fresh w) name email hashedPassword in
      Normal (registered, d')) email_exists)).

(** *** POST /login (routes/auth.js, lines 23-48) *)

Definition router_login (d : db) (w : world) (req : request) : outcome * db :=
  settle d (
    let* email := get h (req_body req) "email" in
    let* password := get h (req_body req) "password" in
    Normal (try_catch d (
      let* found := User_findOne h d email in
      match found with
      | None => Normal (invalid_credentials, d)
      | Some u =>
          let* isMatch := bcrypt_compare h password (user_password u) in
          if negb isMatch then Normal (invalid_credentials, d)
          else
            let* token := jwt_sign h (now w) (user_id u) JWT_SECRET in
            Normal (router_login_success token u, d)
      end) internal_error)).

(** *** GET /user-data (routes/user.js, lines 8-15) *)

(** A user document as [res.json] receives it after [.select('-password')]:
    every member but the password. *)
Definition user_without_password (u : user) : value :=
  document [ ("_id", VObjectId (user_id u));
             ("name", opt_value VStr (user_name u));
             ("email", opt_value VStr (user_email u));
             ("travelHistory", user_travelHistory u);
             ("__v", VNum 0) ].

Definition user_data_handler (decoded : claims) (d : db) (w : world) (req : request)
  : outcome * db :=
  (Sent {| status := 200;
           body := match User_findById d (claim_id decoded) with
                   | Some u => user_without_password u
                   | None => VNull
                   end |}, d).

(** Modelled from the spec: routes/user.js takes its gate from
    [../middleware/authenticateToken], which is not among the sources; the
    specification describes one [authenticate] gate (missing token 401,
    invalid or expired token 403, the decoded id exposed on success), which
    is what [authenticateToken] of server.js does. *)
Definition user_data : db -> world -> request -> outcome * db :=
  authenticated user_data_handler.

(** *** POST /save-travel (server.js, lines 204-226) *)

Definition save_travel_handler (decoded : claims) (d : db) (w : world) (req : request)
  : outcome * db :=
  settle d (
    let* destination := get h (req_body req) "destination" in
    let* budget := get h (req_body req) "budget" in
    let* nights := get h (req_body req) "nights" in
    if negb (to_boolean destination) || negb (to_boolean budget) || negb (to_boolean nights)
    then Normal (all_fields_required, d)
    else Normal (try_catch d (
      let* d' := Travel_save h d (fresh w) (claim_id decoded) destination budget
                             (now w) nights in
      Normal (json 201 [ ("message", VStr "Travel data saved successfully!") ], d'))
      (json 500 [ ("error", VStr "Failed to save travel data!") ]))).

Definition save_travel : db -> world -> request -> outcome * db :=
  authenticated save_travel_handler.

(** *** GET /travel-history (server.js, lines 229-237) *)

Definition travel_document (t : travel) : value :=
  document [ ("_id", VObjectId (travel_id t));
             ("userId", VObjectId (travel_userId t));
             ("destination", opt_value VStr (travel_destination t));
             ("budget", opt_value VNum (travel_budget t));
             ("date", VDate (travel_date t));
             ("nights", opt_value VNum (travel_nights t));
             ("__v", VNum 0) ].

Definition travel_history_handler (decoded : claims) (d : db) (w : world) (req : request)
  : outcome * db :=
  (Sent {| status := 200;
           body := VArray (map travel_document (Travel_find_sorted d (claim_id decoded))) |},
   d).

Definition travel_history : db -> world -> request -> outcome * db :=
  authenticated travel_history_handler.

End Server.

(** ** A host to run the handlers on *)

(** A stand-in for the engine and the libraries, for running the handlers
    on concrete requests: integral numbers print in decimal, built-in
    objects have no further members, the digests concatenate their inputs,
    and Mongoose refuses whatever is not already of the schema's type. *)
Definition sample_number_to_string (x : float) : string :=
  match Prim2SF x with
  | S754_zero _ => "0"
  | S754_infinity false => "Infinity"
  | S754_infinity true => "-Infinity"
  | S754_nan => "NaN"
  | S754_finite s m e =>
      let digits := show_N (Z.to_N (Z.shiftl (Z.pos m) e)) in
      if s then "-" ++ digits else digits
  end.

Definition sample_host : host := {|
  number_to_string := sample_number_to_string;
  object_to_string := fun _ => "function () { [native code] }";
  host_get := fun _ _ => Normal VUndefined;
  host_call := fun _ _ => Normal VUndefined;
  hmac_sha256 := fun key message => key ++ "/" ++ message;
  bcrypt_digest := fun cost salt password => show_N cost ++ salt ++ password;
  cast_string_other := fun _ => Throw CastError;
  cast_number_other := fun _ => Throw CastError;
  query_cast := fun _ => Throw CastError;
  verify_unkeyed := fun _ => Throw (JwtError "secret or public key must be provided")
|}.

(** The distance service answering with one element whose distance is [d]
    metres. *)
Definition one_route (d : value) : network :=
  fun _ => Normal (obj [ ("rows", VArray [ obj [ ("elements",
             VArray [ obj [ ("distance", obj [ ("text", VStr ""); ("value", d) ]);
                            ("status", VStr "OK") ] ]) ] ]) ]).

Definition empty_db : db := {| users := []; travels := [] |}.

(** ** Vocabulary of the properties *)

(** The status a handler answered with, when it answered. *)
Definition answered_status (o : outcome) : option nat :=
  match o with
  | Sent r => Some (status r)
  | Unanswered _ => None
  end.

(** The request the handler sends to the distance service. *)
Definition distance_request (key : value) (props : gmap string value) : call :=
  {| url := distance_matrix_url;
     params := [ ("origins", member props "startingPoint");
                 ("destinations", member props "destination");
                 ("key", key) ] |}.

(** The request of the specification's example: Mid-Range, two travelers,
    three nights, an AC bus, no shopping amount. *)
Definition example_props : gmap string value :=
  list_to_map [ ("startingPoint", VStr "Delhi"); ("destination", VStr "Jaipur");
                ("nights", VNum 3); ("travelers", VNum 2);
                ("budgetLevel", VStr "Mid-Range"); ("transportMode", VStr "Bus");
                ("transportSubtype", VStr "AC Bus") ].

(** The same request with a shopping amount. *)
Definition example_with_amount (amount : value) : gmap string value :=
  <["shoppingAmount" := amount]> example_props.

(** The breakdown as the formulas of the specification give it. *)
Definition formula_breakdown (travelers nights distanceKm perKmRate foodCostPerDay
    hotelCostPerNight shoppingCost : float) : outcome :=
  let transportationCost := (travelers * distanceKm * perKmRate)%float in
  let foodCost := (travelers * nights * foodCostPerDay)%float in
  let hotelCost := (travelers * nights * hotelCostPerNight)%float in
  json 200 [ ("distanceInKm", VNum distanceKm);
             ("transportationCost", VNum transportationCost);
             ("foodCost", VNum foodCost);
             ("shoppingCost", VNum shoppingCost);
             ("hotelCost", VNum hotelCost);
             ("totalCost",
              VNum (transportationCost + foodCost + shoppingCost + hotelCost)%float) ].

(** A numeric member of the answer. *)
Definition cost (name : string) (o : outcome) : option float :=
  match o with
  | Sent r => match field name (body r) with
              | VNum x => Some x
              | _ => None
              end
  | Unanswered _ => None
  end.



(** The store has a user registered under the email [e]. *)
Definition has_email (d : db) (e : string) : Prop :=
  exists u, In u (users d) /\ user_email u = Some e.

Definition has_member (k : string) (v : value) : bool :=
  match own v k with
  | Some _ => true
  | None => false
  end.

(** The answer has a member [password], at the top or in its [user]. *)
Definition shows_password (o : outcome) : bool :=
  match o with
  | Sent r => has_member "password" (body r) || has_member "password" (field "user" (body r))
  | Unanswered _ => false
  end.

(** A user without the password hash. *)
Definition public_part (u : user) : oid * option string * option string * value :=
  (user_id u, user_name u, user_email u, user_travelHistory u).

(** A clock, a salt and an ObjectId for the examples. *)
Definition sample_world : world := {| now := 1700000000123%N; salt := "s4lt"; fresh := 7%N |}.

Definition sample_signup : request :=
  {| authorization := None;
     req_body := obj [ ("name", VStr "Asha"); ("email", VStr "asha@example.in");
                       ("password", VStr "pw") ] |}.

Definition sample_signup_props : gmap string value :=
  list_to_map [ ("name", VStr "Asha"); ("email", VStr "asha@example.in");
                ("password", VStr "pw") ].

(** The store after Asha has registered. *)
Definition sample_db : db := snd (signup sample_host empty_db sample_world sample_signup).

Definition sample_login : request :=
  {| authorization := None;
     req_body := obj [ ("email", VStr "asha@example.in"); ("password", VStr "pw") ] |}.

(** What the server answers to Asha's login. *)
Definition sample_login_response : response :=
  match fst (login sample_host "secret" sample_db sample_world sample_login) with
  | Sent r => r
  | Unanswered _ => {| status := 0; body := VNull |}
  end.

Definition sample_token : string :=
  match field "token" (body sample_login_response) with
  | VStr t => t
  | _ => ""
  end.

(** Two trips of Asha (id 7) and one of somebody else (id 9). *)
Definition sample_trips : db :=
  {| users := users sample_db;
     travels :=
       [ {| travel_id := 20%N; travel_userId := 7%N; travel_destination := Some "Goa";
            travel_budget := Some 5000%float; travel_date := 1700000001000%N;
            travel_nights := Some 2%float |};
         {| travel_id := 21%N; travel_userId := 9%N; travel_destination := Some "Agra";
            travel_budget := Some 900%float; travel_date := 1700000001500%N;
            travel_nights := Some 1%float |};
         {| travel_id := 22%N; travel_userId := 7%N; travel_destination := Some "Leh";
            travel_budget := Some 8000%float; travel_date := 1700000002000%N;
            travel_nights := Some 4%float |} ] |}.

(** Asha saving a trip, and the same request with somebody else's id in
    its body. *)
Definition sample_trip_props : gmap string value :=
  list_to_map [ ("destination", VStr "Goa"); ("budget", VNum 5000); ("nights", VNum 2) ].

Definition sample_save : request := bearer sample_token (VObject sample_trip_props).

Definition sample_save_as_other : request :=
  {| authorization := authorization sample_save;
     req_body := VObject (<["userId" := VStr "000000000000000000000009"]>
                            sample_trip_props) |}.


(** The first user of the store registered under the email [e], which is
    the one [findOne] yields. *)
Definition first_with_email (d : db) (e : string) : option user :=
  List.find (fun u => option_string_eqb (user_email u) (Some e)) (users d).

(** The stored hash of [u] is the digest of the password [p] under the
    hash's own cost and salt. *)
Definition password_matches (h : host) (p : string) (u : user) : bool :=
  String.eqb (bcrypt_digest h (ph_cost (user_password u)) (ph_salt (user_password u)) p)
             (ph_digest (user_password u)).

(** The store [d'] is the store [d] with at most one document added at the
    end of one of its collections. *)
Definition extends (d d' : db) : Prop :=
  exists us ts,
    users d' = (users d ++ us)%list /\ travels d' = (travels d ++ ts)%list /\
    (length us + length ts <= 1)%nat.

(** A fort that has a photo and a palace that has none, and the places
    service answering with the two. *)
Definition amber_fort : gmap string value :=
  list_to_map [ ("name", VStr "Amber Fort");
                ("formatted_address", VStr "Amer, Jaipur");
                ("rating", VNum 4.5);
                ("photos", VArray [ obj [ ("photo_reference", VStr "ref1") ] ]) ].
Definition hawa_mahal : gmap string value :=
  list_to_map [ ("name", VStr "Hawa Mahal");
                ("formatted_address", VStr "Badi Choupad, Jaipur");
                ("rating", VNum 4) ].
Definition two_places : network :=
  fun _ => Normal (obj [ ("status", VStr "OK");
                         ("results", VArray [ VObject amber_fort; VObject hawa_mahal ]) ]).

(** The places service answering that the key is refused. *)
Definition places_denied : network :=
  fun _ => Normal (obj [ ("status", VStr "REQUEST_DENIED"); ("results", VArray []) ]).

(** The places service answering with a place whose list of photos is
    empty. *)
Definition place_without_photo : network :=
  fun _ => Normal (obj [ ("status", VStr "OK");
                         ("results", VArray [
                            obj [ ("name", VStr "Amber Fort"); ("photos", VArray []) ] ]) ]).

Definition jaipur : value := obj [ ("destination", VStr "Jaipur") ].

(** The example request of the budget handler without its travelers. *)
Definition example_without_travelers : gmap string value :=
  delete "travelers" example_props.

(** What the server answers about Jaipur when the service knows the two
    places. *)
Definition sample_places_response : response :=
  match snd (get_places sample_host two_places (VStr "key") jaipur) with
  | Sent r => r
  | Unanswered _ => {| status := 0; body := VNull |}
  end.

(** The example request of the budget handler by boat, and on a tier that
    the table does not have. *)
Definition example_by_boat : gmap string value :=
  <["transportMode" := VStr "Boat"]> example_props.
Definition example_on_a_budget : gmap string value :=
  <["budgetLevel" := VStr "Budget"]> example_props.

(** What Asha's token carries. *)
Definition sample_claims : claims :=
  {| claim_id := 7%N; claim_iat := 1700000000%N; claim_exp := 1700003600%N |}.

(** Asha's login with a wrong password, and without a password. *)
Definition sample_wrong_password : gmap string value :=
  list_to_map [ ("email", VStr "asha@example.in"); ("password", VStr "wrong") ].
Definition sample_no_password : gmap string value :=
  list_to_map [ ("email", VStr "asha@example.in") ].

(** A registration with an empty password. *)
Definition sample_empty_password : gmap string value :=
  list_to_map [ ("name", VStr "Asha"); ("email", VStr "asha@example.in");
                ("password", VStr "") ].

(** A second registration, of Ravi. *)
Definition sample_second_signup : request :=
  {| authorization := None;
     req_body := obj [ ("name", VStr "Ravi"); ("email", VStr "ravi@example.in");
                       ("password", VStr "pw2") ] |}.

(** A trip with a budget of zero. *)
Definition sample_free_trip : gmap string value :=
  list_to_map [ ("destination", VStr "Goa"); ("budget", VNum 0); ("nights", VNum 2) ].



(** What the shopping amount of a request costs: nothing when the amount
    is falsy, and what [parseFloat] makes of it otherwise. *)
Definition shopping_cost (h : host) (amount : value) : completion float :=
  if to_boolean amount then parseFloat h amount else Normal 0%float.

(** One of the conversions that the breakdown makes of the distance and of
    the travelers, the nights and the shopping amount of the request
    throws. *)
Definition conversion_throws (h : host) (props : gmap string value) (distance : value)
  : Prop :=
  (exists e, to_number h distance = Throw e) \/
  (exists e, to_number h (member props "travelers") = Throw e) \/
  (exists e, to_number h (member props "nights") = Throw e) \/
  (exists e, shopping_cost h (member props "shoppingAmount") = Throw e).

(** * Properties *)

(** ** Parsing numbers *)

(** [parseFloat] on texts: a literal, then anything; rounding to the
    nearest binary64 value, also at the ends of the range. *)
Example parse_float_prefix :
  parse_float_string "500" = 500%float /\
  parse_float_string "  12.5abc" = 12.5%float /\
  parse_float_string "-1e-3x" = (-0x1.0624dd2f1a9fcp-10)%float /\
  parse_float_string ".5" = 0.5%float /\
  parse_float_string "5." = 5%float /\
  parse_float_string "0x10" = 0%float /\
  parse_float_string "Infinity and beyond" = PrimFloat.infinity /\
  parse_float_string "." = PrimFloat.nan /\
  parse_float_string "abc" = PrimFloat.nan /\
  parse_float_string "" = PrimFloat.nan.
Proof. repeat split; reflexivity. Qed.

Example parse_float_rounding :
  parse_float_string "0.1" = 0x1.999999999999ap-4%float /\
  parse_float_string "0.30000000000000004" = (0x1.999999999999ap-4 + 0x1.999999999999ap-3)%float /\
  parse_float_string "9007199254740993" = 9007199254740992%float /\
  parse_float_string "1.7976931348623157e308" = 0x1.fffffffffffffp+1023%float /\
  parse_float_string "2e308" = PrimFloat.infinity /\
  parse_float_string "5e-324" = 0x0.0000000000001p-1022%float /\
  parse_float_string "2.4e-324" = 0%float.
Proof. repeat split; reflexivity. Qed.

(** ToNumber on texts: the whole text or nothing. *)
Example string_to_number_whole :
  string_to_number "" = 0%float /\
  string_to_number " 12 " = 12%float /\
  string_to_number "0x10" = 16%float /\
  string_to_number "0b101" = 5%float /\
  string_to_number "12px" = PrimFloat.nan /\
  string_to_number "1,5" = PrimFloat.nan.
Proof. repeat split; reflexivity. Qed.

(** ** Text *)

Lemma string_app_assoc (a b c : string) : (a ++ b) ++ c = a ++ b ++ c.
Proof.
  induction a as [|x a IH]; [reflexivity|].
  change (String x ((a ++ b) ++ c) = String x (a ++ b ++ c)). now rewrite IH.
Qed.

Lemma occurs_app (c : ascii) (a b : string) :
  occurs c (a ++ b) = occurs c a || occurs c b.
Proof.
  induction a as [|x a IH]; simpl; [reflexivity|].
  rewrite IH. apply orb_assoc.
Qed.

Lemma split_on_not_nil (sep : ascii) (s : string) : split_on sep s <> [].
Proof.
  destruct s as [|c r]; simpl; [discriminate|].
  destruct (Ascii.eqb c sep); [discriminate|].
  destruct (split_on sep r); discriminate.
Qed.

Lemma split_on_clean (sep : ascii) (s : string) :
  occurs sep s = false -> split_on sep s = [s].
Proof.
  induction s as [|c r IH]; simpl; intros H; [reflexivity|].
  apply orb_false_elim in H as [Hc Hr].
  rewrite Hc, (IH Hr). reflexivity.
Qed.

Lemma split_on_app (sep : ascii) (a b : string) :
  occurs sep a = false ->
  split_on sep (a ++ String sep b) = a :: split_on sep b.
Proof.
  induction a as [|c r IH]; simpl; intros H.
  - rewrite Ascii.eqb_refl. reflexivity.
  - apply orb_false_elim in H as [Hc Hr].
    rewrite Hc, (IH Hr). reflexivity.
Qed.

Lemma split_on_app_sep (sep : ascii) (a b : string) :
  occurs sep a = false ->
  split_on sep (a ++ String sep "" ++ b) = a :: split_on sep b.
Proof. exact (split_on_app sep a b). Qed.

Lemma split_on_singleton (sep : ascii) (s x : string) :
  split_on sep s = [x] -> x = s.
Proof.
  revert x. induction s as [|c r IH]; simpl; intros x H.
  - congruence.
  - destruct (Ascii.eqb c sep).
    + injection H as _ H. exfalso. exact (split_on_not_nil _ _ H).
    + destruct (split_on sep r) as [|p ps] eqn:E;
        [exfalso; exact (split_on_not_nil _ _ E)|].
      injection H as <- ->. f_equal. apply IH. reflexivity.
Qed.

Lemma occurs_digits (c : ascii) (d : Decimal.uint) :
  is_digit c = false -> occurs c (NilEmpty.string_of_uint d) = false.
Proof.
  intros Hc.
  assert (Hne : forall x : ascii, is_digit x = true -> Ascii.eqb x c = false).
  { intros x Hx. destruct (Ascii.eqb_spec x c) as [->|]; congruence. }
  induction d; cbn [occurs NilEmpty.string_of_uint]; try reflexivity;
    rewrite IHd, Hne; reflexivity.
Qed.

Lemma occurs_show_N (c : ascii) (n : N) :
  is_digit c = false -> occurs c (show_N n) = false.
Proof. apply occurs_digits. Qed.

Lemma parse_show_N (n : N) : parse_N (show_N n) = Some n.
Proof.
  unfold parse_N, show_N. rewrite NilEmpty.usu.
  rewrite DecimalN.Unsigned.of_to. reflexivity.
Qed.

Lemma hex_digit_plain (n : nat) :
  Ascii.eqb (hex_digit n) " " = false /\ Ascii.eqb (hex_digit n) "." = false.
Proof.
  unfold hex_digit.
  do 16 (destruct n as [|n]; [split; reflexivity|]).
  destruct n; split; reflexivity.
Qed.

Lemma occurs_base16 (s : string) :
  occurs " " (base16 s) = false /\ occurs "." (base16 s) = false.
Proof.
  induction s as [|c r [IH1 IH2]]; cbn [occurs base16]; [split; reflexivity|].
  destruct (hex_digit_plain (code c / 16)) as [-> ->].
  destruct (hex_digit_plain (code c mod 16)) as [-> ->].
  split; assumption.
Qed.

(** ** Tokens *)

Lemma occurs_encode_claims (c : ascii) (k : claims) :
  is_digit c = false -> Ascii.eqb "," c = false ->
  occurs c (encode_claims k) = false.
Proof.
  intros Hd Hc. unfold encode_claims.
  rewrite !occurs_app. cbn [occurs]. rewrite !occurs_show_N by assumption.
  rewrite Hc. reflexivity.
Qed.

Lemma decode_encode_claims (k : claims) : decode_claims (encode_claims k) = Some k.
Proof.
  unfold decode_claims, encode_claims.
  rewrite split_on_app_sep by (apply occurs_show_N; reflexivity).
  rewrite split_on_app_sep by (apply occurs_show_N; reflexivity).
  rewrite split_on_clean by (apply occurs_show_N; reflexivity).
  rewrite !parse_show_N. destruct k; reflexivity.
Qed.

Lemma jwt_sign_inv (h : host) (t : N) (id : oid) (secret token : string) :
  jwt_sign h t id secret = Normal token ->
  is_empty secret = false /\
  token = signing_input t id ++ "." ++ jwt_signature h secret (signing_input t id).
Proof.
  unfold jwt_sign. destruct (is_empty secret); [discriminate|].
  intros [= <-]. split; reflexivity.
Qed.

Lemma split_token (t : N) (id : oid) (signature : string) :
  split_on "." (signing_input t id ++ "." ++ signature)
  = jwt_algorithm :: encode_claims (issued_claims t id) :: split_on "." signature.
Proof.
  unfold signing_input.
  rewrite !string_app_assoc.
  rewrite split_on_app_sep by reflexivity.
  rewrite split_on_app_sep by (apply occurs_encode_claims; reflexivity).
  reflexivity.
Qed.

Lemma occurs_signing_input (t : N) (id : oid) : occurs " " (signing_input t id) = false.
Proof.
  unfold signing_input. rewrite !occurs_app.
  rewrite occurs_encode_claims by reflexivity. reflexivity.
Qed.

Lemma jwt_verify_fresh (h : host) (t t' : N) (id : oid) (secret : string) :
  is_empty secret = false ->
  (t' / 1000 < t / 1000 + 3600)%N ->
  jwt_verify h t' (signing_input t id ++ "." ++ jwt_signature h secret (signing_input t id))
             secret
  = Normal (issued_claims t id).
Proof.
  intros Hs Ht. unfold jwt_verify.
  rewrite split_token.
  rewrite split_on_clean by apply occurs_base16.
  rewrite decode_encode_claims, Hs.
  change (jwt_algorithm ++ "." ++ encode_claims (issued_claims t id))
    with (signing_input t id).
  rewrite !String.eqb_refl. cbn [negb].
  replace (N.leb (claim_exp (issued_claims t id)) (t' / 1000)) with false; [reflexivity|].
  symmetry. apply N.leb_gt. exact Ht.
Qed.

Lemma jwt_verify_expired (h : host) (t t' : N) (id : oid) (secret : string) :
  is_empty secret = false ->
  (t / 1000 + 3600 <= t' / 1000)%N ->
  jwt_verify h t' (signing_input t id ++ "." ++ jwt_signature h secret (signing_input t id))
             secret
  = Throw (JwtError "jwt expired").
Proof.
  intros Hs Ht. unfold jwt_verify.
  rewrite split_token.
  rewrite split_on_clean by apply occurs_base16.
  rewrite decode_encode_claims, Hs.
  change (jwt_algorithm ++ "." ++ encode_claims (issued_claims t id))
    with (signing_input t id).
  rewrite !String.eqb_refl. cbn [negb].
  replace (N.leb (claim_exp (issued_claims t id)) (t' / 1000)) with true; [reflexivity|].
  symmetry. apply N.leb_le. exact Ht.
Qed.

Lemma jwt_verify_tampered (h : host) (t t' : N) (id : oid) (secret signature : string) :
  is_empty secret = false ->
  signature <> jwt_signature h secret (signing_input t id) ->
  exists e, jwt_verify h t' (signing_input t id ++ "." ++ signature) secret = Throw e.
Proof.
  intros Hs Hne. unfold jwt_verify.
  rewrite split_token.
  destruct (split_on "." signature) as [|x [|y rest]] eqn:E.
  - eexists; reflexivity.
  - apply split_on_singleton in E. subst x.
    rewrite decode_encode_claims, Hs.
    change (jwt_algorithm ++ "." ++ encode_claims (issued_claims t id))
      with (signing_input t id).
    rewrite String.eqb_refl. cbn [negb].
    destruct (String.eqb_spec signature (jwt_signature h secret (signing_input t id)))
      as [Heq|_]; [contradiction|].
    eexists; reflexivity.
  - eexists; reflexivity.
Qed.

(** ** The gate *)

Lemma authenticate_bearer (h : host) (secret : string) (w : world) (token : string)
    (b : value) :
  occurs " " token = false ->
  is_empty token = false ->
  authenticateToken h secret w (bearer token b)
  = match jwt_verify h (now w) token secret with
    | Normal decoded => inr decoded
    | Throw _ => inl invalid_token
    end.
Proof.
  intros Hsp Hne. unfold authenticateToken, bearer. cbn [authorization].
  change ("Bearer " ++ token) with ("Bearer" ++ " " ++ token).
  rewrite split_on_app_sep by reflexivity.
  rewrite split_on_clean by assumption.
  cbn [nth_error]. rewrite Hne. reflexivity.
Qed.

Lemma token_nonempty (t : N) (id : oid) (signature : string) :
  is_empty (signing_input t id ++ "." ++ signature) = false.
Proof. reflexivity. Qed.

(** ** Login *)

(** Case analysis on the handler in [H], innermost scrutinee first. *)
Ltac split_handler H :=
  repeat match type of H with
         | context [match ?x with _ => _ end] =>
             lazymatch x with
             | context [match _ with _ => _ end] => fail
             | _ => destruct x eqn:?
             end
         end.

(** Closes a branch of a handler whose status is not the one in [Hs]. *)
Ltac wrong_status H Hs :=
  let E := fresh "E" in
  pose proof (f_equal (fun p => answered_status (fst p)) H) as E;
  simpl in E; first [discriminate E | rewrite Hs in E; discriminate E].

Lemma User_findOne_In (h : host) (d : db) (email : value) (u : user) :
  User_findOne h d email = Normal (Some u) -> In u (users d).
Proof.
  unfold User_findOne, bind. intros H.
  destruct (match email with VStr s => _ | _ => _ end) as [matches|]; [|discriminate].
  injection H as H. apply find_some in H. tauto.
Qed.

Lemma login_inv (h : host) (secret : string) (d d' : db) (w : world) (req : request)
    (r : response) :
  login h secret d w req = (Sent r, d') -> status r = 200%nat ->
  exists u token,
    In u (users d) /\ jwt_sign h (now w) (user_id u) secret = Normal token /\
    Sent r = login_success token u /\ d' = d.
Proof.
  intros H Hs. unfold login, settle, try_catch, bind in H.
  split_handler H;
    try (wrong_status H Hs).
  eexists _, _. split; [eapply User_findOne_In; eassumption|].
  split; [eassumption|]. split; congruence.
Qed.

Lemma router_login_inv (h : host) (secret : string) (d d' : db) (w : world) (req : request)
    (r : response) :
  router_login h secret d w req = (Sent r, d') -> status r = 200%nat ->
  exists u token,
    In u (users d) /\ jwt_sign h (now w) (user_id u) secret = Normal token /\
    Sent r = router_login_success token u /\ d' = d.
Proof.
  intros H Hs. unfold router_login, settle, try_catch, bind in H.
  split_handler H;
    try (wrong_status H Hs).
  eexists _, _. split; [eapply User_findOne_In; eassumption|].
  split; [eassumption|]. split; congruence.
Qed.

Lemma occurs_token (h : host) (secret : string) (t : N) (id : oid) :
  occurs " " (signing_input t id ++ "." ++ jwt_signature h secret (signing_input t id))
  = false.
Proof.
  rewrite !occurs_app, occurs_signing_input.
  unfold jwt_signature. destruct (occurs_base16 (hmac_sha256 h secret (signing_input t id)))
    as [-> _]. reflexivity.
Qed.

(** What a successful login, by either handler, hands out. *)
Lemma login_issues (h : host) (secret : string) (d d' : db) (w : world) (req : request)
    (r : response) :
  login h secret d w req = (Sent r, d') \/ router_login h secret d w req = (Sent r, d') ->
  status r = 200%nat ->
  exists u,
    In u (users d) /\ is_empty secret = false /\
    field "token" (body r)
    = VStr (signing_input (now w) (user_id u) ++ "."
            ++ jwt_signature h secret (signing_input (now w) (user_id u))) /\
    field "id" (field "user" (body r)) = VObjectId (user_id u).
Proof.
  intros [H|H] Hs.
  - destruct (login_inv _ _ _ _ _ _ _ H Hs) as (u & token & Hin & Hsign & Hr & _).
    apply jwt_sign_inv in Hsign as [Hsec ->].
    exists u. injection Hr as ->. repeat split; try assumption; reflexivity.
  - destruct (router_login_inv _ _ _ _ _ _ _ H Hs) as (u & token & Hin & Hsign & Hr & _).
    apply jwt_sign_inv in Hsign as [Hsec ->].
    exists u. injection Hr as ->. repeat split; try assumption; reflexivity.
Qed.

(** C2.  A token issued by a successful login (by the handler of server.js
    or by the one of routes/auth.js) is accepted by the authentication gate
    for one hour and decodes to the id of the user who logged in, which is
    the id the login response shows; from the hour on the gate answers 403;
    and the same token with any other signature is answered 403 as well. *)
Theorem login_token_round_trip (h : host) (secret : string) (d d' : db) (w : world)
    (req : request) (r : response) :
  login h secret d w req = (Sent r, d') \/ router_login h secret d w req = (Sent r, d') ->
  status r = 200%nat ->
  exists u signature,
    In u (users d) /\
    field "token" (body r) = VStr (signing_input (now w) (user_id u) ++ "." ++ signature) /\
    field "id" (field "user" (body r)) = VObjectId (user_id u) /\
    (forall w' b, (now w' / 1000 < now w / 1000 + 3600)%N ->
       exists decoded,
         authenticateToken h secret w'
           (bearer (signing_input (now w) (user_id u) ++ "." ++ signature) b) = inr decoded /\
         claim_id decoded = user_id u) /\
    (forall w' b, (now w / 1000 + 3600 <= now w' / 1000)%N ->
       authenticateToken h secret w'
         (bearer (signing_input (now w) (user_id u) ++ "." ++ signature) b)
       = inl invalid_token) /\
    (forall w' b signature',
       signature' <> signature -> occurs " " signature' = false ->
       authenticateToken h secret w'
         (bearer (signing_input (now w) (user_id u) ++ "." ++ signature') b)
       = inl invalid_token).
Proof.
  intros H Hs.
  destruct (login_issues _ _ _ _ _ _ _ H Hs) as (u & Hin & Hsec & Htok & Hid).
  exists u, (jwt_signature h secret (signing_input (now w) (user_id u))).
  split; [exact Hin|]. split; [exact Htok|]. split; [exact Hid|].
  split; [|split].
  - intros w' b Hlt. exists (issued_claims (now w) (user_id u)).
    rewrite authenticate_bearer by (apply occurs_token || apply token_nonempty).
    rewrite jwt_verify_fresh by assumption. split; reflexivity.
  - intros w' b Hge.
    rewrite authenticate_bearer by (apply occurs_token || apply token_nonempty).
    rewrite jwt_verify_expired by assumption. reflexivity.
  - intros w' b signature' Hne Hsp.
    rewrite authenticate_bearer.
    + destruct (jwt_verify_tampered h (now w) (now w') (user_id u) secret signature'
                  Hsec Hne) as [e ->].
      reflexivity.
    + rewrite !occurs_app, occurs_signing_input, Hsp. reflexivity.
    + apply token_nonempty.
Qed.

(** ** The budget handler *)

Lemma own_obj_In (l : list (string * value)) (k : string) (v : value) :
  own (obj l) k = Some v -> In (k, v) l.
Proof.
  unfold own, obj. intros H. apply elem_of_list_to_map_2 in H.
  apply list_elem_of_In. exact H.
Qed.

Lemma member_own (props : gmap string value) (k : string) (v : value) :
  props !! k = Some v -> member props k = v.
Proof. unfold member. now intros ->. Qed.

(** A request whose tier and transport are own entries of the two tables
    passes validation and asks the distance service once; the rates of the
    entries are numbers, and the answer is what the [try] block makes of
    the service's answer. *)
Lemma budget_of_table_entries (h : host) (net : network) (key : value)
    (props : gmap string value) (tier mode subtype : string) (level table rate : value) :
  props !! "budgetLevel" = Some (VStr tier) ->
  props !! "transportMode" = Some (VStr mode) ->
  props !! "transportSubtype" = Some (VStr subtype) ->
  own pricing tier = Some level ->
  own transportPricing mode = Some table ->
  own table subtype = Some rate ->
  exists perKmRate foodCostPerDay hotelCostPerNight,
    rate = VNum perKmRate /\
    field "foodCostPerDay" level = VNum foodCostPerDay /\
    field "hotelCostPerNight" level = VNum hotelCostPerNight /\
    calculate_budget h net key (VObject props)
    = ([distance_request key props],
       match (let* data := net (distance_request key props) in
              let* distance := extract_distance h data in
              breakdown h (member props "travelers") (member props "nights")
                        (member props "shoppingAmount")
                        (VNum hotelCostPerNight) (VNum foodCostPerDay)
                        (VNum perKmRate) distance) with
       | Normal answer => answer
       | Throw _ => distance_error
       end).
Proof.
  intros Hl Hm Hs Hlevel Htable Hrate.
  unfold calculate_budget, calculate_budget_run.
  cbn [get bind].
  rewrite (member_own _ _ _ Hl), (member_own _ _ _ Hm), (member_own _ _ _ Hs).
  unfold get_computed. cbn [to_string bind].
  apply own_obj_In in Hlevel. apply own_obj_In in Htable.
  cbn [In] in Hlevel, Htable.
  destruct Hlevel as [[= <- <-]|[[= <- <-]|[]]];
    destruct Htable as [[= <- <-]|[[= <- <-]|[[= <- <-]|[]]]];
    apply own_obj_In in Hrate; cbn [In] in Hrate;
    repeat (destruct Hrate as [[= <- <-]|Hrate]); try contradiction;
    eexists _, _, _; repeat (split; [reflexivity|]); reflexivity.
Qed.

(** What the [try] block makes of a distance, for rates that are numbers:
    the breakdown of the formulas over what the distance, the travelers,
    the nights and the shopping amount convert to, and a throw when one
    of them cannot be converted. *)
Lemma breakdown_cases (h : host) (props : gmap string value)
    (hotelCostPerNight foodCostPerDay perKmRate : float) (distance : value) :
  (exists metres travelers nights shoppingCost,
     to_number h distance = Normal metres /\
     to_number h (member props "travelers") = Normal travelers /\
     to_number h (member props "nights") = Normal nights /\
     shopping_cost h (member props "shoppingAmount") = Normal shoppingCost /\
     breakdown h (member props "travelers") (member props "nights")
               (member props "shoppingAmount")
               (VNum hotelCostPerNight) (VNum foodCostPerDay) (VNum perKmRate) distance
     = Normal (formula_breakdown travelers nights (metres / 1000)%float perKmRate
                 foodCostPerDay hotelCostPerNight shoppingCost)) \/
  (conversion_throws h props distance /\
   exists e,
     breakdown h (member props "travelers") (member props "nights")
               (member props "shoppingAmount")
               (VNum hotelCostPerNight) (VNum foodCostPerDay) (VNum perKmRate) distance
     = Throw e).
Proof.
  unfold breakdown, js_div, js_mul, conversion_throws.
  change (if to_boolean (member props "shoppingAmount")
          then parseFloat h (member props "shoppingAmount")
          else Normal PrimFloat.zero)
    with (shopping_cost h (member props "shoppingAmount")).
  set (cd := to_number h distance).
  set (ct := to_number h (member props "travelers")).
  set (cn := to_number h (member props "nights")).
  set (cs := shopping_cost h (member props "shoppingAmount")).
  cbn [to_number bind].
  destruct cd as [metres|e]; [|right; split; eauto].
  destruct ct as [travelers|e]; [|right; split; eauto].
  destruct cn as [nights|e]; [|right; split; eauto 6].
  destruct cs as [shoppingCost|e]; [|right; split; eauto 6].
  left. exists metres, travelers, nights, shoppingCost.
  repeat (split; [reflexivity|]). reflexivity.
Qed.

(** The same, once the service has given a distance and the numbers of
    the request convert: the answer is the breakdown of the formulas. *)
Lemma budget_of_distance (h : host) (net : network) (key : value)
    (props : gmap string value) (tier mode subtype : string)
    (level table rate data distance : value) (metres travelers nights shoppingCost : float) :
  props !! "budgetLevel" = Some (VStr tier) ->
  props !! "transportMode" = Some (VStr mode) ->
  props !! "transportSubtype" = Some (VStr subtype) ->
  own pricing tier = Some level ->
  own transportPricing mode = Some table ->
  own table subtype = Some rate ->
  net (distance_request key props) = Normal data ->
  extract_distance h data = Normal distance ->
  to_number h distance = Normal metres ->
  to_number h (member props "travelers") = Normal travelers ->
  to_number h (member props "nights") = Normal nights ->
  shopping_cost h (member props "shoppingAmount") = Normal shoppingCost ->
  exists perKmRate foodCostPerDay hotelCostPerNight,
    rate = VNum perKmRate /\
    field "foodCostPerDay" level = VNum foodCostPerDay /\
    field "hotelCostPerNight" level = VNum hotelCostPerNight /\
    calculate_budget h net key (VObject props)
    = ([distance_request key props],
       formula_breakdown travelers nights (metres / 1000)%float perKmRate
         foodCostPerDay hotelCostPerNight shoppingCost).
Proof.
  intros Hl Hm Hs Hlevel Htable Hrate Hnet Hdist Hmetres Htravelers Hnights Hshopping.
  destruct (budget_of_table_entries h net key props tier mode subtype level table rate)
    as (perKmRate & food & hotel & Hr & Hf & Hh & Hrun); try assumption.
  exists perKmRate, food, hotel. repeat (split; [assumption|]).
  rewrite Hrun, Hnet. cbn [bind]. rewrite Hdist. cbn [bind].
  destruct (breakdown_cases h props hotel food perKmRate distance)
    as [(m & t & n & c & Hm' & Ht' & Hn' & Hc' & ->)|[Hthrows _]].
  - congruence.
  - exfalso. unfold conversion_throws in Hthrows.
    destruct Hthrows as [[e H]|[[e H]|[[e H]|[e H]]]]; congruence.
Qed.

(** The same, when one of the conversions throws: the answer is the 500 of
    the [catch], although the service has answered. *)
Lemma budget_of_failed_conversion (h : host) (net : network) (key : value)
    (props : gmap string value) (tier mode subtype : string)
    (level table rate data distance : value) :
  props !! "budgetLevel" = Some (VStr tier) ->
  props !! "transportMode" = Some (VStr mode) ->
  props !! "transportSubtype" = Some (VStr subtype) ->
  own pricing tier = Some level ->
  own transportPricing mode = Some table ->
  own table subtype = Some rate ->
  net (distance_request key props) = Normal data ->
  extract_distance h data = Normal distance ->
  conversion_throws h props distance ->
  calculate_budget h net key (VObject props)
  = ([distance_request key props], distance_error).
Proof.
  intros Hl Hm Hs Hlevel Htable Hrate Hnet Hdist Hthrows.
  destruct (budget_of_table_entries h net key props tier mode subtype level table rate)
    as (perKmRate & food & hotel & Hr & Hf & Hh & Hrun); try assumption.
  rewrite Hrun, Hnet. cbn [bind]. rewrite Hdist. cbn [bind].
  destruct (breakdown_cases h props hotel food perKmRate distance)
    as [(m & t & n & c & Hm' & Ht' & Hn' & Hc' & _)|[_ [e ->]]]; [|reflexivity].
  exfalso. unfold conversion_throws in Hthrows.
  destruct Hthrows as [[e H]|[[e H]|[[e H]|[e H]]]]; congruence.
Qed.

(** C1.  On the example of the specification (a distance of 100 km, that
    is 100000 m from the service) the handler answers 1000, 3600, 0, 9000
    and 13600.  For every request whose tier and transport are entries of
    the tables, for which the service gives a distance, and whose
    travelers, nights, shopping amount and distance convert to numbers,
    the rates are the numbers of the tables and the answer is the
    breakdown of the formulas over those numbers; when one of the
    conversions throws, the answer is the 500 of the handler.  And the
    answer depends on the network only through what the service answers
    to the one request. *)
Theorem budget_costs_follow_formulas :
  (forall (h : host) (key : value),
     calculate_budget h (one_route (VNum 100000)) key (VObject example_props)
     = ([distance_request key example_props],
        json 200 [ ("distanceInKm", VNum 100);
                   ("transportationCost", VNum 1000);
                   ("foodCost", VNum 3600);
                   ("shoppingCost", VNum 0);
                   ("hotelCost", VNum 9000);
                   ("totalCost", VNum 13600) ])) /\
  (forall (h : host) (net : network) (key : value) (props : gmap string value)
          (tier mode subtype : string) (level table rate data distance : value)
          (metres travelers nights shoppingCost : float),
     props !! "budgetLevel" = Some (VStr tier) ->
     props !! "transportMode" = Some (VStr mode) ->
     props !! "transportSubtype" = Some (VStr subtype) ->
     own pricing tier = Some level ->
     own transportPricing mode = Some table ->
     own table subtype = Some rate ->
     net (distance_request key props) = Normal data ->
     extract_distance h data = Normal distance ->
     to_number h distance = Normal metres ->
     to_number h (member props "travelers") = Normal travelers ->
     to_number h (member props "nights") = Normal nights ->
     shopping_cost h (member props "shoppingAmount") = Normal shoppingCost ->
     exists perKmRate foodCostPerDay hotelCostPerNight,
       rate = VNum perKmRate /\
       field "foodCostPerDay" level = VNum foodCostPerDay /\
       field "hotelCostPerNight" level = VNum hotelCostPerNight /\
       calculate_budget h net key (VObject props)
       = ([distance_request key props],
          formula_breakdown travelers nights (metres / 1000)%float perKmRate
            foodCostPerDay hotelCostPerNight shoppingCost)) /\
  (forall (h : host) (net : network) (key : value) (props : gmap string value)
          (tier mode subtype : string) (level table rate data distance : value),
     props !! "budgetLevel" = Some (VStr tier) ->
     props !! "transportMode" = Some (VStr mode) ->
     props !! "transportSubtype" = Some (VStr subtype) ->
     own pricing tier = Some level ->
     own transportPricing mode = Some table ->
     own table subtype = Some rate ->
     net (distance_request key props) = Normal data ->
     extract_distance h data = Normal distance ->
     conversion_throws h props distance ->
     calculate_budget h net key (VObject props)
     = ([distance_request key props], distance_error)) /\
  (forall (h : host) (net net' : network) (key : value) (props : gmap string value)
          (tier mode subtype : string) (level table rate : value),
     props !! "budgetLevel" = Some (VStr tier) ->
     props !! "transportMode" = Some (VStr mode) ->
     props !! "transportSubtype" = Some (VStr subtype) ->
     own pricing tier = Some level ->
     own transportPricing mode = Some table ->
     own table subtype = Some rate ->
     net (distance_request key props) = net' (distance_request key props) ->
     calculate_budget h net key (VObject props)
     = calculate_budget h net' key (VObject props)).
Proof.
  split; [|split; [|split]].
  - intros h key. reflexivity.
  - intros h net key props tier mode subtype level table rate data distance
           metres travelers nights shoppingCost.
    apply budget_of_distance.
  - intros h net key props tier mode subtype level table rate data distance.
    apply budget_of_failed_conversion.
  - intros h net net' key props tier mode subtype level table rate
           Hl Hm Hs Hlevel Htable Hrate Hnet.
    destruct (budget_of_table_entries h net key props tier mode subtype level table rate)
      as (r & f & c & Hr & Hf & Hc & ->); try assumption.
    destruct (budget_of_table_entries h net' key props tier mode subtype level table rate)
      as (r' & f' & c' & Hr' & Hf' & Hc' & ->); try assumption.
    assert (r' = r) by congruence. assert (f' = f) by congruence.
    assert (c' = c) by congruence. subst r' f' c'.
    rewrite Hnet. reflexivity.
Qed.

(** ** Floating-point facts *)

Lemma add_nan_r (x : float) : (x + PrimFloat.nan)%float = PrimFloat.nan.
Proof.
  rewrite <- (SF2Prim_Prim2SF (x + PrimFloat.nan)). rewrite add_spec.
  change (Prim2SF PrimFloat.nan) with S754_nan.
  destruct (Prim2SF x); reflexivity.
Qed.

Lemma add_nan_l (x : float) : (PrimFloat.nan + x)%float = PrimFloat.nan.
Proof.
  rewrite <- (SF2Prim_Prim2SF (PrimFloat.nan + x)). rewrite add_spec.
  change (Prim2SF PrimFloat.nan) with S754_nan. reflexivity.
Qed.



(** A tier that is neither an entry of [pricing] nor a name that
    [Object.prototype] carries is refused before anything is sent. *)
Lemma budget_rejects_unknown_tier (h : host) (net : network) (key : value)
    (props : gmap string value) (tier : string) :
  props !! "budgetLevel" = Some (VStr tier) ->
  own pricing tier = None ->
  object_prototype_member (VBuiltin ObjectPrototype) tier = VUndefined ->
  calculate_budget h net key (VObject props) = ([], invalid_budget).
Proof.
  intros Hl Hown Hproto.
  unfold calculate_budget, calculate_budget_run. cbn [get bind].
  rewrite (member_own _ _ _ Hl).
  unfold get_computed. cbn [to_string bind]. unfold pricing, obj in *. cbn [get own] in *.
  unfold member. rewrite Hown, Hproto. reflexivity.
Qed.

(** C5.  The names that every object inherits pass the validation although
    they are entries of neither table: with the tier [__proto__] or
    [constructor], or the fare class [toString] of a bus, the handler does
    send its request to the distance service, and answers 200. *)
Theorem inherited_names_pass_validation :
  (own pricing "__proto__" = None /\
   forall (h : host) (key : value),
     let props := <["budgetLevel" := VStr "__proto__"]> example_props in
     let run := calculate_budget h (one_route (VNum 100000)) key (VObject props) in
     fst run = [distance_request key props] /\ answered_status (snd run) = Some 200%nat) /\
  (own pricing "constructor" = None /\
   forall (key : value),
     let props := <["budgetLevel" := VStr "constructor"]> example_props in
     let run := calculate_budget sample_host (one_route (VNum 100000)) key (VObject props) in
     fst run = [distance_request key props] /\ answered_status (snd run) = Some 200%nat) /\
  ((exists table, own transportPricing "Bus" = Some table /\ own table "toString" = None) /\
   forall (h : host) (key : value),
     let props := <["transportSubtype" := VStr "toString"]> example_props in
     let run := calculate_budget h (one_route (VNum 100000)) key (VObject props) in
     fst run = [distance_request key props] /\ answered_status (snd run) = Some 200%nat).
Proof.
  split; [|split]; split; try reflexivity; try (intros; split; reflexivity).
  eexists. split; reflexivity.
Qed.

(** ** Shopping *)

(** C8, at an amount that is no number: the shopping cost and the total
    are both NaN, not 0 and not a number. *)
Lemma unparsable_shopping_amount_is_nan :
  let answer :=
    snd (calculate_budget sample_host (one_route (VNum 100000)) (VStr "key")
           (VObject (example_with_amount (VStr "abc")))) in
  cost "shoppingCost" answer = Some PrimFloat.nan /\
  cost "totalCost" answer = Some PrimFloat.nan /\
  cost "shoppingCost" answer <> Some 0%float.
Proof.
  split; [reflexivity|]. split; [reflexivity|].
  intros H. vm_compute in H. discriminate H.
Qed.

(** C8, as the handler has it.  For a request that passes validation,
    gets a distance, and whose distance, travelers and nights convert to
    numbers: the shopping cost is [parseFloat] of the amount when the
    amount is truthy and 0 when it is not (absent, null, empty, zero), and
    the total is the sum of the four costs; for a text that starts, white
    space apart, with a decimal literal the shopping cost is the value of
    that literal; for a non-empty text that does not, it is NaN and so is
    the total; and for an amount that cannot be converted to a text the
    answer is the 500 of the handler. *)
Theorem shopping_cost_is_parsed_amount (h : host) (net : network) (key : value)
    (props : gmap string value) (tier mode subtype : string)
    (level table rate data distance : value) (metres travelers nights : float) :
  props !! "budgetLevel" = Some (VStr tier) ->
  props !! "transportMode" = Some (VStr mode) ->
  props !! "transportSubtype" = Some (VStr subtype) ->
  own pricing tier = Some level ->
  own transportPricing mode = Some table ->
  own table subtype = Some rate ->
  net (distance_request key props) = Normal data ->
  extract_distance h data = Normal distance ->
  to_number h distance = Normal metres ->
  to_number h (member props "travelers") = Normal travelers ->
  to_number h (member props "nights") = Normal nights ->
  let amount := member props "shoppingAmount" in
  let answer := snd (calculate_budget h net key (VObject props)) in
  (forall shoppingCost,
     (if to_boolean amount then parseFloat h amount else Normal 0%float)
     = Normal shoppingCost ->
     exists transportationCost foodCost hotelCost,
       answered_status answer = Some 200%nat /\
       cost "transportationCost" answer = Some transportationCost /\
       cost "foodCost" answer = Some foodCost /\
       cost "shoppingCost" answer = Some shoppingCost /\
       cost "hotelCost" answer = Some hotelCost /\
       cost "totalCost" answer
       = Some (transportationCost + foodCost + shoppingCost + hotelCost)%float) /\
  (to_boolean amount = false -> cost "shoppingCost" answer = Some 0%float) /\
  (forall s x rest, amount = VStr s -> s <> "" ->
     str_decimal_literal (trim_start s) = Some (x, rest) ->
     cost "shoppingCost" answer = Some x) /\
  (forall s, amount = VStr s -> s <> "" ->
     str_decimal_literal (trim_start s) = None ->
     cost "shoppingCost" answer = Some PrimFloat.nan /\
     cost "totalCost" answer = Some PrimFloat.nan) /\
  (forall e, to_boolean amount = true -> to_string h amount = Throw e ->
     answer = distance_error).
Proof.
  intros Hl Hm Hs Hlevel Htable Hrate Hnet Hdist Hmetres Htravelers Hnights amount answer.
  assert (Hrun : forall c, shopping_cost h amount = Normal c ->
            exists r f hc,
              answer = formula_breakdown travelers nights (metres / 1000)%float r f hc c).
  { intros c Hc.
    destruct (budget_of_distance h net key props tier mode subtype level table rate
                data distance metres travelers nights c)
      as (r & f & hc & _ & _ & _ & Hrun); try assumption.
    exists r, f, hc. subst answer. rewrite Hrun. reflexivity. }
  assert (Htruthy : forall s, s <> "" -> to_boolean (VStr s) = true).
  { intros [|c s] Hne; [contradiction|reflexivity]. }
  split; [|split; [|split; [|split]]].
  - intros c Hc. destruct (Hrun c Hc) as (r & f & hc & ->).
    unfold formula_breakdown. eexists _, _, _. repeat split; reflexivity.
  - intros Hfalsy.
    destruct (Hrun 0%float) as (r & f & hc & ->);
      [unfold shopping_cost; rewrite Hfalsy; reflexivity|reflexivity].
  - intros s x rest Hamount Hne Hparse.
    destruct (Hrun x) as (r & f & hc & ->); [|reflexivity].
    unfold shopping_cost, parseFloat, parse_float_string. rewrite Hamount.
    rewrite (Htruthy s Hne). cbn [to_string bind]. rewrite Hparse. reflexivity.
  - intros s Hamount Hne Hparse.
    destruct (Hrun PrimFloat.nan) as (r & f & hc & ->).
    { unfold shopping_cost, parseFloat, parse_float_string. rewrite Hamount.
      rewrite (Htruthy s Hne). cbn [to_string bind]. rewrite Hparse. reflexivity. }
    split; [reflexivity|]. unfold formula_breakdown, cost, json. cbn [body].
    change (field "totalCost" _) with
      (VNum (travelers * (metres / 1000) * r + travelers * nights * f + PrimFloat.nan
             + travelers * nights * hc)%float).
    rewrite add_nan_r, add_nan_l. reflexivity.
  - intros e Htrue Hthrow. subst answer.
    rewrite (budget_of_failed_conversion h net key props tier mode subtype level table
               rate data distance); try assumption; [reflexivity|].
    right. right. right. exists e. unfold shopping_cost, parseFloat.
    fold amount. rewrite Htrue, Hthrow. reflexivity.
Qed.

(** ** A missing or zero distance *)







(** ** Registration *)

Lemma find_some_exists {A} (f : A -> bool) (l : list A) (x : A) :
  In x l -> f x = true -> exists y, List.find f l = Some y.
Proof.
  induction l as [|a l IH]; cbn [In List.find]; [contradiction|].
  intros [->|Hin] Hx.
  - rewrite Hx. eauto.
  - destruct (f a); eauto.
Qed.

Lemma option_string_eqb_refl (o : option string) : option_string_eqb o o = true.
Proof. destruct o; [apply String.eqb_refl|reflexivity]. Qed.

Lemma User_save_inv (h : host) (d d' : db) (id : oid) (name : value) (e : string)
    (password : pwhash) :
  User_save h d id name (VStr e) password = Normal d' ->
  has_email d' e /\ travels d' = travels d /\
  exists u, users d' = (users d ++ [u])%list /\ user_email u = Some e.
Proof.
  unfold User_save, bind. cbn [cast_string].
  destruct (cast_string h name) as [n|]; [|discriminate].
  destruct (existsb _ (users d)); [discriminate|].
  intros [= <-]. cbn [users travels].
  split; [|split; [reflexivity|]].
  - eexists. split; [apply in_or_app; right; left; reflexivity|reflexivity].
  - eexists. split; reflexivity.
Qed.

Lemma User_save_duplicate (h : host) (d : db) (id : oid) (name : value) (e : string)
    (password : pwhash) :
  has_email d e ->
  exists err, User_save h d id name (VStr e) password = Throw err.
Proof.
  intros (u & Hin & He). unfold User_save, bind. cbn [cast_string].
  destruct (cast_string h name) as [n|err]; [|eauto].
  replace (existsb _ (users d)) with true; [eauto|].
  symmetry. apply existsb_exists. exists u. split; [exact Hin|].
  rewrite He. apply String.eqb_refl.
Qed.

(** A registration that succeeded, by either handler, left a user under
    the email it was asked for. *)
Lemma registered_has_email (h : host) (d d' : db) (w : world) (req : request)
    (props : gmap string value) (e : string) (r : response) :
  req_body req = VObject props ->
  props !! "email" = Some (VStr e) ->
  signup h d w req = (Sent r, d') \/ router_signup h d w req = (Sent r, d') ->
  status r = 201%nat ->
  has_email d' e.
Proof.
  intros Hbody He H Hs. destruct H as [H|H].
  - unfold signup, settle, try_catch, bind in H. rewrite Hbody in H.
    cbn [get] in H. rewrite (member_own _ _ _ He) in H.
    split_handler H; try (wrong_status H Hs).
    injection H as _ <-.
    match goal with Hsave : User_save _ _ _ _ _ _ = Normal _ |- _ =>
      apply User_save_inv in Hsave as [Hhas _]; exact Hhas end.
  - unfold router_signup, RouterUser_save, settle, try_catch, bind in H.
    rewrite Hbody in H.
    cbn [get] in H. rewrite (member_own _ _ _ He) in H.
    split_handler H; try (wrong_status H Hs).
    injection H as _ <-.
    match goal with Hsave : User_save _ _ _ _ _ _ = Normal _ |- _ =>
      apply User_save_inv in Hsave as [Hhas _]; exact Hhas end.
Qed.

(** server.js: a request for an email that is taken is answered 400 and
    leaves the store alone. *)
Lemma signup_taken_email (h : host) (d : db) (w : world) (req : request)
    (props : gmap string value) (e : string) :
  req_body req = VObject props ->
  props !! "email" = Some (VStr e) ->
  has_email d e ->
  exists o, signup h d w req = (o, d) /\ answered_status o = Some 400%nat /\
    (to_boolean (member props "name") = true ->
     to_boolean (VStr e) = true ->
     to_boolean (member props "password") = true -> o = email_exists).
Proof.
  intros Hbody He (u & Hin & Hu).
  unfold signup, settle, try_catch, bind. rewrite Hbody. cbn [get].
  rewrite (member_own _ _ _ He).
  destruct (to_boolean (member props "name")); cbn [negb orb];
    [|eexists; split; [reflexivity|split; [reflexivity|discriminate]]].
  destruct (to_boolean (VStr e)); cbn [negb orb];
    [|eexists; split; [reflexivity|split; [reflexivity|discriminate]]].
  destruct (to_boolean (member props "password")); cbn [negb orb];
    [|eexists; split; [reflexivity|split; [reflexivity|discriminate]]].
  unfold User_findOne. cbn [bind].
  destruct (find_some_exists (fun u0 => option_string_eqb (user_email u0) (Some e))
              (users d) u Hin) as [y ->].
  { rewrite Hu. apply String.eqb_refl. }
  eexists. split; [reflexivity|]. split; reflexivity.
Qed.

(** routes/auth.js: the same, for a request whose password is a text. *)
Lemma router_signup_taken_email (h : host) (d : db) (w : world) (req : request)
    (props : gmap string value) (e p : string) :
  req_body req = VObject props ->
  props !! "email" = Some (VStr e) ->
  props !! "password" = Some (VStr p) ->
  has_email d e ->
  router_signup h d w req = (email_exists, d).
Proof.
  intros Hbody He Hp Hhas.
  unfold router_signup, RouterUser_save, settle, try_catch, bind.
  rewrite Hbody. cbn [get].
  rewrite (member_own _ _ _ He), (member_own _ _ _ Hp). cbn [bcrypt_hash].
  destruct (User_save_duplicate h d (fresh w) (member props "name") e
              {| ph_cost := 10; ph_salt := salt w;
                 ph_digest := bcrypt_digest h 10 (salt w) p |} Hhas) as [err ->].
  reflexivity.
Qed.

(** C3.  After a registration under an email has succeeded (201, by
    either handler), a second registration under the same email is
    answered 400 and the store stays exactly as the first left it: by
    server.js with [Email already exists!] when its name and password are
    non-empty, by routes/auth.js with [Email already exists!] when its
    password is a text. *)
Theorem duplicate_email_is_refused (h : host) (d0 d1 : db) (w1 w2 : world)
    (first second : request) (props1 props2 : gmap string value) (e : string)
    (r1 : response) :
  req_body first = VObject props1 -> props1 !! "email" = Some (VStr e) ->
  req_body second = VObject props2 -> props2 !! "email" = Some (VStr e) ->
  signup h d0 w1 first = (Sent r1, d1) \/ router_signup h d0 w1 first = (Sent r1, d1) ->
  status r1 = 201%nat ->
  has_email d1 e /\
  (exists o, signup h d1 w2 second = (o, d1) /\ answered_status o = Some 400%nat /\
     (to_boolean (member props2 "name") = true ->
      to_boolean (member props2 "password") = true ->
      e <> "" -> o = email_exists)) /\
  (forall p, props2 !! "password" = Some (VStr p) ->
     router_signup h d1 w2 second = (email_exists, d1)).
Proof.
  intros Hb1 He1 Hb2 He2 Hfirst Hs.
  assert (Hhas : has_email d1 e)
    by exact (registered_has_email h d0 d1 w1 first props1 e r1 Hb1 He1 Hfirst Hs).
  split; [exact Hhas|]. split.
  - destruct (signup_taken_email h d1 w2 second props2 e Hb2 He2 Hhas)
      as (o & Hrun & Hst & Hmsg).
    exists o. split; [exact Hrun|]. split; [exact Hst|].
    intros Hn Hp Hne. apply Hmsg; try assumption.
    destruct e; [contradiction|reflexivity].
  - intros p Hp. eapply router_signup_taken_email; eassumption.
Qed.

(** server.js refuses a registration in which a field is missing or empty,
    and leaves the store alone. *)
Lemma signup_requires_all_fields (h : host) (d : db) (w : world) (req : request)
    (props : gmap string value) :
  req_body req = VObject props ->
  to_boolean (member props "name") && to_boolean (member props "email")
    && to_boolean (member props "password") = false ->
  signup h d w req = (all_fields_required, d).
Proof.
  intros Hbody Hmissing. unfold signup, settle, bind. rewrite Hbody. cbn [get].
  destruct (to_boolean (member props "name")),
           (to_boolean (member props "email")),
           (to_boolean (member props "password")); try discriminate; reflexivity.
Qed.

(** C4.  The signup route of routes/auth.js checks nothing: a request
    without a name, or with an empty name and an empty email, is answered
    201 and a user is stored; a request without a password is not answered
    at all.  The handler of server.js answers each of them 400 and stores
    nothing. *)
Theorem router_signup_accepts_missing_fields (h : host) (w : world) :
  let no_name :=
    {| authorization := None;
       req_body := obj [ ("email", VStr "asha@example.in"); ("password", VStr "pw") ] |} in
  let empty_fields :=
    {| authorization := None;
       req_body := obj [ ("name", VStr ""); ("email", VStr ""); ("password", VStr "pw") ] |} in
  let no_password :=
    {| authorization := None;
       req_body := obj [ ("name", VStr "Asha"); ("email", VStr "asha@example.in") ] |} in
  let stored name email :=
    {| users := [ {| user_id := fresh w; user_name := name; user_email := email;
                     user_password := {| ph_cost := 10; ph_salt := salt w;
                                         ph_digest := bcrypt_digest h 10 (salt w) "pw" |};
                     user_travelHistory := VUndefined |} ];
       travels := [] |} in
  router_signup h empty_db w no_name = (registered, stored None (Some "asha@example.in")) /\
  router_signup h empty_db w empty_fields = (registered, stored (Some "") (Some "")) /\
  router_signup h empty_db w no_password = (Unanswered IllegalArguments, empty_db) /\
  signup h empty_db w no_name = (all_fields_required, empty_db) /\
  signup h empty_db w empty_fields = (all_fields_required, empty_db) /\
  signup h empty_db w no_password = (all_fields_required, empty_db).
Proof.
  intros no_name empty_fields no_password stored.
  repeat split; reflexivity.
Qed.

(** ** What the responses show *)

(** Case analysis on the handler in the goal, innermost scrutinee first. *)
Ltac split_goal :=
  repeat match goal with
         | |- context [match ?x with _ => _ end] =>
             lazymatch x with
             | context [match _ with _ => _ end] => fail
             | _ => destruct x
             end
         end.

Lemma login_hides_password (h : host) (secret : string) (d : db) (w : world)
    (req : request) :
  shows_password (fst (login h secret d w req)) = false.
Proof. unfold login, settle, try_catch, bind. split_goal; reflexivity. Qed.

Lemma router_login_hides_password (h : host) (secret : string) (d : db) (w : world)
    (req : request) :
  shows_password (fst (router_login h secret d w req)) = false.
Proof. unfold router_login, settle, try_catch, bind. split_goal; reflexivity. Qed.

Lemma user_document_hides_password (u : user) :
  has_member "password" (user_without_password u) = false.
Proof.
  unfold user_without_password, document, opt_value. cbn [List.filter snd].
  split_goal; reflexivity.
Qed.

Lemma user_document_has_no_user (u : user) :
  field "user" (user_without_password u) = VUndefined.
Proof.
  unfold user_without_password, document, opt_value. cbn [List.filter snd].
  split_goal; reflexivity.
Qed.

Lemma authenticateToken_refusal (h : host) (secret : string) (w : world) (req : request)
    (o : outcome) :
  authenticateToken h secret w req = inl o -> o = access_denied \/ o = invalid_token.
Proof.
  unfold authenticateToken. intros H.
  split_handler H; try discriminate H; injection H as <-; auto.
Qed.

Lemma refusal_hides_password (h : host) (secret : string) (w : world) (req : request)
    (o : outcome) :
  authenticateToken h secret w req = inl o -> shows_password o = false.
Proof.
  intros H. destruct (authenticateToken_refusal _ _ _ _ _ H) as [->| ->]; reflexivity.
Qed.

Lemma user_data_hides_password (h : host) (secret : string) (d : db) (w : world)
    (req : request) :
  shows_password (fst (user_data h secret d w req)) = false.
Proof.
  unfold user_data, authenticated, user_data_handler.
  destruct (authenticateToken h secret w req) as [refused|decoded] eqn:Hgate.
  - cbn [fst]. eapply refusal_hides_password; eassumption.
  - cbn [fst shows_password body].
    destruct (User_findById d (claim_id decoded)) as [u|]; [|reflexivity].
    rewrite user_document_hides_password, user_document_has_no_user. reflexivity.
Qed.

Lemma find_by_id_public (l l2 : list user) (id : oid) :
  map public_part l = map public_part l2 ->
  option_map public_part (List.find (fun u => N.eqb (user_id u) id) l)
  = option_map public_part (List.find (fun u => N.eqb (user_id u) id) l2).
Proof.
  revert l2. induction l as [|u l IH]; intros [|u2 l2] H; try discriminate H;
    [reflexivity|].
  assert (Hu : public_part u = public_part u2) by (simpl in H; congruence).
  assert (Hl : map public_part l = map public_part l2) by (simpl in H; congruence).
  assert (Hid : user_id u = user_id u2) by (unfold public_part in Hu; congruence).
  simpl. rewrite Hid. destruct (N.eqb (user_id u2) id).
  - simpl. now rewrite Hu.
  - apply IH. exact Hl.
Qed.

Lemma User_findById_public (d d2 : db) (id : oid) :
  map public_part (users d) = map public_part (users d2) ->
  option_map public_part (User_findById d id) = option_map public_part (User_findById d2 id).
Proof. apply find_by_id_public. Qed.

Lemma user_without_password_public (u u2 : user) :
  public_part u = public_part u2 -> user_without_password u = user_without_password u2.
Proof.
  unfold public_part, user_without_password. intros [= -> -> -> ->]. reflexivity.
Qed.

(** C6.  No answer of the two login handlers and of /user-data has a
    member [password], at the top or in its [user] member; the [user] of a
    successful login has the members id, name and email (server.js), or id,
    username, email and travelHistory (routes/auth.js); and the answer of
    /user-data is the same whatever the password hashes in the store are. *)
Theorem no_response_shows_password (h : host) (secret : string) (d : db) (w : world)
    (req : request) :
  shows_password (fst (login h secret d w req)) = false /\
  shows_password (fst (router_login h secret d w req)) = false /\
  shows_password (fst (user_data h secret d w req)) = false /\
  (forall r d', login h secret d w req = (Sent r, d') -> status r = 200%nat ->
     member_names (field "user" (body r)) = {[ "id"; "name"; "email" ]}) /\
  (forall r d', router_login h secret d w req = (Sent r, d') -> status r = 200%nat ->
     member_names (field "user" (body r))
     = {[ "id"; "username"; "email"; "travelHistory" ]}) /\
  (forall d2, map public_part (users d) = map public_part (users d2) ->
     fst (user_data h secret d2 w req) = fst (user_data h secret d w req)).
Proof.
  split; [apply login_hides_password|].
  split; [apply router_login_hides_password|].
  split; [apply user_data_hides_password|].
  split; [|split].
  - intros r d' H Hs.
    destruct (login_inv _ _ _ _ _ _ _ H Hs) as (u & token & _ & _ & Hr & _).
    injection Hr as ->. vm_compute. reflexivity.
  - intros r d' H Hs.
    destruct (router_login_inv _ _ _ _ _ _ _ H Hs) as (u & token & _ & _ & Hr & _).
    injection Hr as ->. vm_compute. reflexivity.
  - intros d2 Hsame. unfold user_data, authenticated, user_data_handler.
    destruct (authenticateToken h secret w req) as [refused|decoded]; [reflexivity|].
    cbn [fst]. do 2 f_equal.
    pose proof (User_findById_public d d2 (claim_id decoded) Hsame) as Hfind.
    destruct (User_findById d (claim_id decoded)) as [u|],
             (User_findById d2 (claim_id decoded)) as [u2|]; try discriminate;
      [|reflexivity].
    symmetry. apply user_without_password_public. simpl in Hfind. congruence.
Qed.

(** ** Travel records *)

#[global] Instance newer_first_total : Total newer_first.
Proof. intros a b. unfold newer_first. lia. Qed.

#[global] Instance newer_first_transitive : Transitive newer_first.
Proof. intros a b c. unfold newer_first. lia. Qed.

Lemma gate_ignores_body (h : host) (secret : string) (w : world) (req : request)
    (b : value) :
  authenticateToken h secret w {| authorization := authorization req; req_body := b |}
  = authenticateToken h secret w req.
Proof. reflexivity. Qed.

(** C7.  For a request that passes the gate, /travel-history answers 200
    with the documents of exactly the records of the store whose owner is
    the id of the token, each as often as the store has it, newest first;
    in particular with the empty array when the store has none for that
    id.  The store is not changed. *)
Theorem travel_history_is_own_newest_first (h : host) (secret : string) (d : db)
    (w : world) (req : request) (decoded : claims) :
  authenticateToken h secret w req = inr decoded ->
  exists l,
    travel_history h secret d w req
    = (Sent {| status := 200; body := VArray (map travel_document l) |}, d) /\
    Permutation l
      (List.filter (fun t => N.eqb (travel_userId t) (claim_id decoded)) (travels d)) /\
    StronglySorted newer_first l /\
    (forall t, In t l <-> In t (travels d) /\ travel_userId t = claim_id decoded) /\
    ((forall t, In t (travels d) -> travel_userId t <> claim_id decoded) -> l = []).
Proof.
  intros Hgate. exists (Travel_find_sorted d (claim_id decoded)).
  assert (Hperm : Permutation (Travel_find_sorted d (claim_id decoded))
            (List.filter (fun t => N.eqb (travel_userId t) (claim_id decoded)) (travels d)))
    by apply merge_sort_Permutation.
  assert (Hin : forall t, In t (Travel_find_sorted d (claim_id decoded)) <->
                          In t (travels d) /\ travel_userId t = claim_id decoded).
  { intros t. split.
    - intros H. apply (Permutation_in _ Hperm) in H.
      apply filter_In in H as [H1 H2]. split; [exact H1|]. now apply N.eqb_eq.
    - intros [H1 H2]. apply (Permutation_in _ (Permutation_sym Hperm)).
      apply filter_In. split; [exact H1|]. now apply N.eqb_eq. }
  split; [|split; [exact Hperm|split; [|split; [exact Hin|]]]].
  - unfold travel_history, authenticated. rewrite Hgate. reflexivity.
  - apply StronglySorted_merge_sort; typeclasses eauto.
  - intros Hnone.
    destruct (Travel_find_sorted d (claim_id decoded)) as [|t l] eqn:E; [reflexivity|].
    exfalso. destruct (proj1 (Hin t) (or_introl eq_refl)) as [H1 H2].
    exact (Hnone t H1 H2).
Qed.

Lemma member_insert_ne (props : gmap string value) (k k' : string) (x : value) :
  k' <> k -> member (<[k' := x]> props) k = member props k.
Proof. intros Hne. unfold member. now rewrite lookup_insert_ne. Qed.

(** What the handler behind the gate does to the store. *)
Lemma save_travel_handler_cases (h : host) (decoded : claims) (d : db) (w : world)
    (req : request) :
  snd (save_travel_handler h decoded d w req) = d \/
  exists t,
    snd (save_travel_handler h decoded d w req)
    = {| users := users d; travels := (travels d ++ [t])%list |} /\
    travel_userId t = claim_id decoded /\ travel_date t = now w /\
    answered_status (fst (save_travel_handler h decoded d w req)) = Some 201%nat.
Proof.
  unfold save_travel_handler, settle, try_catch, Travel_save, bind.
  split_goal; cbn [snd fst]; try (left; reflexivity).
  right. eexists. repeat split.
Qed.

(** What a token that verifies under a secret is: the algorithm, claims
    that decode and have not expired, and the signature of the two under
    the secret. *)
Lemma jwt_verify_inv (h : host) (t : N) (token secret : string) (c : claims) :
  secret <> "" ->
  jwt_verify h t token secret = Normal c ->
  exists payload,
    split_on "." token
    = [ jwt_algorithm; payload;
        jwt_signature h secret (jwt_algorithm ++ "." ++ payload) ] /\
    decode_claims payload = Some c /\
    (t / 1000 < claim_exp c)%N.
Proof.
  intros Hsecret. unfold jwt_verify.
  destruct (split_on "." token) as [|alg [|payload [|signature [|x l]]]];
    try discriminate.
  destruct (decode_claims payload) as [c'|] eqn:Hdecode; [|discriminate].
  destruct secret as [|a secret]; [contradiction|]. cbn [is_empty].
  destruct (String.eqb alg jwt_algorithm) eqn:Halg; cbn [negb]; [|discriminate].
  destruct (String.eqb signature _) eqn:Hsig; cbn [negb]; [|discriminate].
  destruct (N.leb (claim_exp c') (t / 1000)) eqn:Hexp; [discriminate|].
  intros [= <-]. apply String.eqb_eq in Halg, Hsig. apply N.leb_gt in Hexp.
  subst alg signature. exists payload.
  split; [reflexivity|]. split; [exact Hdecode|exact Hexp].
Qed.

(** What the gate lets through: a header whose second word is a token that
    [jwt.verify] accepts, with the claims of that token. *)
Lemma authenticateToken_inv (h : host) (secret : string) (w : world) (req : request)
    (decoded : claims) :
  authenticateToken h secret w req = inr decoded ->
  exists header token,
    authorization req = Some header /\
    nth_error (split_on " " header) 1 = Some token /\
    jwt_verify h (now w) token secret = Normal decoded.
Proof.
  unfold authenticateToken.
  destruct (authorization req) as [header|]; [|discriminate].
  destruct (nth_error (split_on " " header) 1) as [token|] eqn:Hword; [|discriminate].
  destruct (is_empty token); [discriminate|].
  destruct (jwt_verify h (now w) token secret) as [c|e] eqn:Hverify; [|discriminate].
  intros [= <-]. exists header, token.
  split; [reflexivity|]. split; [exact Hword|exact Hverify].
Qed.

(** C10.  /save-travel never touches the users, and either leaves the
    travel records as they were or adds one record.  When it adds one, the
    request has an Authorization header whose second word is a token that
    [jwt.verify] accepts under the server's secret (with a secret
    configured: the algorithm, claims that have not expired, and the
    signature of the two under the secret), and the owner of the record is
    the id in the claims of that token.  A request whose token
    [jwt.verify] refuses is answered 403 and stores nothing.  A [userId]
    member in the body changes neither the answer nor the store. *)
Theorem saved_record_belongs_to_token_user (h : host) (secret : string) (d : db)
    (w : world) (req : request) :
  users (snd (save_travel h secret d w req)) = users d /\
  (travels (snd (save_travel h secret d w req)) = travels d \/
   exists header token decoded t,
     authorization req = Some header /\
     nth_error (split_on " " header) 1 = Some token /\
     jwt_verify h (now w) token secret = Normal decoded /\
     (secret <> "" ->
      exists payload,
        split_on "." token
        = [ jwt_algorithm; payload;
            jwt_signature h secret (jwt_algorithm ++ "." ++ payload) ] /\
        decode_claims payload = Some decoded /\
        (now w / 1000 < claim_exp decoded)%N) /\
     travels (snd (save_travel h secret d w req)) = (travels d ++ [t])%list /\
     travel_userId t = claim_id decoded /\
     answered_status (fst (save_travel h secret d w req)) = Some 201%nat) /\
  (forall header token e,
     authorization req = Some header ->
     nth_error (split_on " " header) 1 = Some token ->
     token <> "" ->
     jwt_verify h (now w) token secret = Throw e ->
     save_travel h secret d w req = (invalid_token, d)) /\
  (forall props x,
     req_body req = VObject props ->
     save_travel h secret d w
       {| authorization := authorization req;
          req_body := VObject (<["userId" := x]> props) |}
     = save_travel h secret d w req).
Proof.
  unfold save_travel, authenticated.
  split; [|split; [|split]].
  - destruct (authenticateToken h secret w req) as [refused|decoded]; [reflexivity|].
    destruct (save_travel_handler_cases h decoded d w req) as [->|(t & -> & _)];
      reflexivity.
  - destruct (authenticateToken h secret w req) as [refused|decoded] eqn:Hgate;
      [left; reflexivity|].
    destruct (save_travel_handler_cases h decoded d w req)
      as [->|(t & Hstore & Howner & _ & Hstatus)]; [left; reflexivity|].
    destruct (authenticateToken_inv h secret w req decoded Hgate)
      as (header & token & Hheader & Hword & Hverify).
    right. exists header, token, decoded, t. rewrite Hstore.
    split; [exact Hheader|]. split; [exact Hword|]. split; [exact Hverify|].
    split; [|repeat split; assumption].
    intros Hsecret. exact (jwt_verify_inv h (now w) token secret decoded Hsecret Hverify).
  - intros header token e Hheader Hword Htoken Hverify.
    unfold authenticateToken. rewrite Hheader, Hword.
    destruct token as [|c token]; [contradiction|]. cbn [is_empty].
    rewrite Hverify. reflexivity.
  - intros props x Hbody. rewrite gate_ignores_body.
    destruct (authenticateToken h secret w req) as [refused|decoded]; [reflexivity|].
    unfold save_travel_handler. cbn [req_body]. rewrite Hbody. cbn [get].
    rewrite !member_insert_ne by discriminate. reflexivity.
Qed.

(** * The theorems at concrete requests *)

Lemma budget_costs_follow_formulas_witness :
  calculate_budget sample_host (one_route (VNum 100000)) (VStr "key") (VObject example_props)
  = ([distance_request (VStr "key") example_props],
     formula_breakdown 2 3 100 5 600 1500 0).
Proof.
  destruct (proj1 (proj2 budget_costs_follow_formulas) sample_host
              (one_route (VNum 100000)) (VStr "key") example_props
              "Mid-Range" "Bus" "AC Bus" _ _ _ _ _ 100000%float 2%float 3%float 0%float
              eq_refl eq_refl eq_refl eq_refl eq_refl eq_refl eq_refl eq_refl
              eq_refl eq_refl eq_refl eq_refl)
    as (perKmRate & foodCostPerDay & hotelCostPerNight & Hrate & Hfood & Hhotel & Hrun).
  rewrite Hrun. injection Hrate as <-.
  vm_compute in Hfood. injection Hfood as <-.
  vm_compute in Hhotel. injection Hhotel as <-.
  reflexivity.
Defined.

Lemma login_token_round_trip_witness :
  login sample_host "secret" sample_db sample_world sample_login
  = (Sent sample_login_response, sample_db) /\
  status sample_login_response = 200%nat /\
  exists decoded,
    authenticateToken sample_host "secret"
      {| now := 1700003599999%N; salt := ""; fresh := 8%N |} (bearer sample_token VNull)
    = inr decoded /\
    claim_id decoded = 7%N.
Proof.
  assert (Hlogin : login sample_host "secret" sample_db sample_world sample_login
                   = (Sent sample_login_response, sample_db)) by (vm_compute; reflexivity).
  assert (Hstatus : status sample_login_response = 200%nat) by reflexivity.
  split; [exact Hlogin|]. split; [exact Hstatus|].
  destruct (login_token_round_trip sample_host "secret" sample_db sample_db sample_world
              sample_login sample_login_response (or_introl Hlogin) Hstatus)
    as (u & signature & Hin & Htoken & Hid & Hfresh & _).
  assert (Hu : user_id u = 7%N).
  { assert (H7 : VObjectId (user_id u) = VObjectId 7%N)
      by (rewrite <- Hid; vm_compute; reflexivity).
    now injection H7. }
  assert (Ht : sample_token
               = signing_input (now sample_world) (user_id u) ++ "." ++ signature).
  { unfold sample_token. rewrite Htoken. reflexivity. }
  destruct (Hfresh {| now := 1700003599999%N; salt := ""; fresh := 8%N |} VNull)
    as (decoded & Hgate & Hclaim).
  { vm_compute. reflexivity. }
  exists decoded. rewrite Ht. split; [exact Hgate|congruence].
Defined.

Lemma duplicate_email_is_refused_witness :
  signup sample_host empty_db sample_world sample_signup = (registered, sample_db) /\
  signup sample_host sample_db sample_world sample_signup = (email_exists, sample_db) /\
  router_signup sample_host sample_db sample_world sample_signup = (email_exists, sample_db).
Proof.
  assert (Hfirst : signup sample_host empty_db sample_world sample_signup
                   = (registered, sample_db)) by (vm_compute; reflexivity).
  destruct (duplicate_email_is_refused sample_host empty_db sample_db sample_world
              sample_world sample_signup sample_signup sample_signup_props
              sample_signup_props "asha@example.in"
              {| status := 201;
                 body := obj [ ("message", VStr "User registered successfully!") ] |}
              eq_refl eq_refl eq_refl eq_refl (or_introl Hfirst) eq_refl)
    as (_ & (o & Hserver & _ & Hmessage) & Hrouter).
  split; [exact Hfirst|]. split.
  - rewrite Hserver. f_equal. apply Hmessage; [reflexivity|reflexivity|discriminate].
  - exact (Hrouter "pw" eq_refl).
Defined.

Lemma travel_history_is_own_newest_first_witness :
  exists l,
    travel_history sample_host "secret" sample_trips sample_world (bearer sample_token VNull)
    = (Sent {| status := 200; body := VArray (map travel_document l) |}, sample_trips) /\
    map travel_destination l = [Some "Leh"; Some "Goa"].
Proof.
  destruct (travel_history_is_own_newest_first sample_host "secret" sample_trips
              sample_world (bearer sample_token VNull)
              {| claim_id := 7%N; claim_iat := 1700000000%N; claim_exp := 1700003600%N |})
    as (l & Hrun & _).
  { vm_compute. reflexivity. }
  exists (Travel_find_sorted sample_trips 7%N). split; [|vm_compute; reflexivity].
  unfold travel_history, authenticated.
  replace (authenticateToken sample_host "secret" sample_world (bearer sample_token VNull))
    with (inr (B := claims) (A := outcome)
            {| claim_id := 7%N; claim_iat := 1700000000%N; claim_exp := 1700003600%N |})
    by (vm_compute; reflexivity).
  reflexivity.
Defined.

Lemma shopping_cost_is_parsed_amount_witness :
  cost "shoppingCost"
    (snd (calculate_budget sample_host (one_route (VNum 100000)) (VStr "key")
            (VObject (example_with_amount (VStr " 250.50 rupees")))))
  = Some 250.5%float.
Proof.
  destruct (shopping_cost_is_parsed_amount sample_host (one_route (VNum 100000)) (VStr "key")
              (example_with_amount (VStr " 250.50 rupees"))
              "Mid-Range" "Bus" "AC Bus" _ _ _ _ _ 100000%float 2%float 3%float
              eq_refl eq_refl eq_refl eq_refl eq_refl eq_refl eq_refl eq_refl
              eq_refl eq_refl eq_refl)
    as (_ & _ & Hparse & _).
  exact (Hparse " 250.50 rupees" 250.5%float " rupees" eq_refl
           ltac:(discriminate) eq_refl).
Defined.


Lemma no_response_shows_password_witness :
  shows_password (fst (login sample_host "secret" sample_db sample_world sample_login))
  = false /\
  member_names (field "user" (body sample_login_response)) = {[ "id"; "name"; "email" ]}.
Proof.
  assert (Hlogin : login sample_host "secret" sample_db sample_world sample_login
                   = (Sent sample_login_response, sample_db)) by (vm_compute; reflexivity).
  destruct (no_response_shows_password sample_host "secret" sample_db sample_world
              sample_login) as (Hhidden & _ & _ & Hmembers & _).
  split; [exact Hhidden|].
  exact (Hmembers sample_login_response sample_db Hlogin eq_refl).
Defined.

Lemma saved_record_belongs_to_token_user_witness :
  save_travel sample_host "secret" sample_db sample_world sample_save_as_other
  = save_travel sample_host "secret" sample_db sample_world sample_save /\
  map travel_userId
    (travels (snd (save_travel sample_host "secret" sample_db sample_world
                     sample_save_as_other)))
  = [7%N].
Proof.
  destruct (saved_record_belongs_to_token_user sample_host "secret" sample_db sample_world
              sample_save) as (_ & _ & _ & Hignored).
  assert (Hsame : save_travel sample_host "secret" sample_db sample_world
                    sample_save_as_other
                  = save_travel sample_host "secret" sample_db sample_world sample_save)
    by exact (Hignored sample_trip_props (VStr "000000000000000000000009") eq_refl).
  split; [exact Hsame|]. rewrite Hsame. vm_compute. reflexivity.
Defined.

(** * Further properties of the handlers *)

(** ** The places handler *)

Lemma map_completion_Forall2 {A B : Type} (f : A -> completion B) (l : list A)
    (l' : list B) :
  map_completion f l = Normal l' <-> Forall2 (fun a b => f a = Normal b) l l'.
Proof.
  revert l'. induction l as [|a l IH]; intros l'; cbn [map_completion].
  - split.
    + intros [= <-]. constructor.
    + intros H. inversion H. reflexivity.
  - unfold bind. split.
    + destruct (f a) as [b|] eqn:Ha; [|discriminate].
      destruct (map_completion f l) as [bs|] eqn:Hl; [|discriminate].
      intros [= <-]. constructor; [exact Ha|]. apply IH. reflexivity.
    + intros H. inversion H as [|a' b l0 bs Ha Hl]; subst.
      rewrite Ha. apply IH in Hl. rewrite Hl. reflexivity.
Qed.

Lemma map_completion_throw {A B : Type} (f : A -> completion B) (l : list A) (a : A)
    (e : error) :
  In a l -> f a = Throw e -> exists e', map_completion f l = Throw e'.
Proof.
  induction l as [|x l IH]; cbn [In map_completion]; [contradiction|].
  intros [->|Hin] Ha; unfold bind.
  - rewrite Ha. eauto.
  - destruct (f x); [|eauto].
    destruct (IH Hin Ha) as [e' ->]. eauto.
Qed.

(** Whatever the place, a summary has the four members and no other. *)
Lemma place_summary_members (h : host) (key place summary : value) :
  place_summary h key place = Normal summary ->
  member_names summary = {[ "name"; "address"; "rating"; "photo" ]}.
Proof.
  unfold place_summary, bind. intros H.
  split_handler H; try discriminate H; injection H as <-; vm_compute; reflexivity.
Qed.

(** The summary of a place that is an object. *)
Lemma place_summary_of_object (h : host) (key : value) (p : gmap string value)
    (summary : value) :
  place_summary h key (VObject p) = Normal summary ->
  field "name" summary = member p "name" /\
  field "address" summary = member p "formatted_address" /\
  field "rating" summary = member p "rating" /\
  (to_boolean (member p "photos") = false -> field "photo" summary = VNull) /\
  (to_boolean (member p "photos") = true ->
   exists first photo_reference reference keytext,
     get h (member p "photos") "0" = Normal first /\
     get h first "photo_reference" = Normal photo_reference /\
     to_string h photo_reference = Normal reference /\
     to_string h key = Normal keytext /\
     field "photo" summary
     = VStr (photo_url_prefix ++ reference ++ "&key=" ++ keytext)).
Proof.
  unfold place_summary. cbn [get bind].
  destruct (to_boolean (member p "photos")).
  - unfold bind.
    destruct (get h (member p "photos") "0") as [first|] eqn:Hfirst; [|discriminate].
    destruct (get h first "photo_reference") as [ref|] eqn:Href; [|discriminate].
    destruct (to_string h ref) as [reference|] eqn:Hreference; [|discriminate].
    destruct (to_string h key) as [keytext|] eqn:Hkey; [|discriminate].
    intros [= <-]. repeat split; try reflexivity; [discriminate|].
    intros _. exists first, ref, reference, keytext.
    repeat split; assumption || reflexivity.
  - cbn [bind]. intros [= <-]. repeat split; try reflexivity. discriminate.
Qed.

Lemma is_string_true (s : string) (v : value) : is_string s v = true -> v = VStr s.
Proof.
  destruct v; try discriminate. cbn [is_string]. intros H.
  apply String.eqb_eq in H. now subst.
Qed.

(** What a 200 answer of the places handler comes from. *)
Lemma get_places_ok_inv (h : host) (net : network) (key req : value) (r : response) :
  snd (get_places h net key req) = Sent r -> status r = 200%nat ->
  exists destination text data results summaries,
    get h req "destination" = Normal destination /\
    to_boolean destination = true /\
    to_string h destination = Normal text /\
    fst (get_places h net key req) = [places_request key text] /\
    net (places_request key text) = Normal data /\
    get h data "status" = Normal (VStr "OK") /\
    get h data "results" = Normal (VArray results) /\
    body r = VArray summaries /\
    Forall2 (fun place summary => place_summary h key place = Normal summary)
            results summaries.
Proof.
  intros H Hs. unfold get_places, get_places_run, bind in *.
  destruct (get h req "destination") as [destination|] eqn:Hd; [|discriminate H].
  destruct (to_boolean destination) eqn:Ht; cbn [negb fst snd] in *;
    [|injection H as <-; discriminate Hs].
  destruct (to_string h destination) as [text|] eqn:Htext; cbn [fst snd] in *;
    [|injection H as <-; discriminate Hs].
  destruct (net (places_request key text)) as [data|] eqn:Hnet;
    [|injection H as <-; discriminate Hs].
  unfold places_of, bind in H.
  destruct (get h data "status") as [st|] eqn:Hst; [|injection H as <-; discriminate Hs].
  destruct (is_string "OK" st) eqn:Hok; cbn [negb] in H;
    [|injection H as <-; discriminate Hs].
  apply is_string_true in Hok. subst st.
  destruct (get h data "results") as [results|] eqn:Hres;
    [|injection H as <-; discriminate Hs].
  unfold array_map, bind in H.
  destruct results as [| | | | |l| | | |]; try (injection H as <-; discriminate Hs).
  destruct (map_completion (place_summary h key) l) as [summaries|] eqn:Hmap;
    [|injection H as <-; discriminate Hs].
  injection H as <-.
  exists destination, text, data, l, summaries.
  repeat split; try assumption; try reflexivity.
  apply map_completion_Forall2. exact Hmap.
Qed.

(** When the places handler sends a request, and which.  A request whose
    destination is missing or falsy is answered 400 and nothing is sent.
    A destination that cannot be converted to a text (the object of the
    JSON text [{"toString":1}]) is answered 500 and nothing is sent, since
    the query is built before the request is made.  For any other
    destination exactly one request is sent, to the text-search service,
    for the tourist attractions in the text of the destination and with
    the server's key, and the answer is a 200 or a 500. *)
Theorem get_places_sends_one_request (h : host) (net : network) (key req : value) :
  (forall e,
     get h req "destination" = Throw e ->
     get_places h net key req = ([], Unanswered e)) /\
  (forall destination,
     get h req "destination" = Normal destination ->
     (to_boolean destination = false ->
      get_places h net key req = ([], destination_required)) /\
     (forall e,
        to_boolean destination = true -> to_string h destination = Throw e ->
        get_places h net key req = ([], places_error)) /\
     (forall text,
        to_boolean destination = true -> to_string h destination = Normal text ->
        fst (get_places h net key req)
        = [ {| url := places_url;
               params := [ ("query", VStr ("Tourist attractions in " ++ text));
                           ("key", key) ] |} ] /\
        (answered_status (snd (get_places h net key req)) = Some 200%nat \/
         answered_status (snd (get_places h net key req)) = Some 500%nat))).
Proof.
  unfold get_places, get_places_run. split.
  - intros e ->. reflexivity.
  - intros destination ->. cbn [bind]. split; [|split].
    + intros ->. reflexivity.
    + intros e -> ->. reflexivity.
    + intros text -> ->. cbn [negb fst snd]. split; [reflexivity|].
      unfold places_of, array_map, bind.
      split_goal; (left; reflexivity) || (right; reflexivity).
Qed.

(** The places handler answers all or nothing.  Once the destination is
    there and converts to a text: a failure of the transport is answered
    500; an answer of the service whose [status] is not the text [OK] is
    answered 500 whatever results it carries; and so is an answer whose
    [results] is not an array. *)
Theorem get_places_service_failures (h : host) (net : network) (key req : value)
    (destination : value) (text : string) :
  get h req "destination" = Normal destination ->
  to_boolean destination = true ->
  to_string h destination = Normal text ->
  (forall e, net (places_request key text) = Throw e ->
     get_places h net key req = ([places_request key text], places_error)) /\
  (forall data status,
     net (places_request key text) = Normal data ->
     get h data "status" = Normal status ->
     is_string "OK" status = false ->
     get_places h net key req = ([places_request key text], places_failed)) /\
  (forall data results,
     net (places_request key text) = Normal data ->
     get h data "status" = Normal (VStr "OK") ->
     get h data "results" = Normal results ->
     (forall l, results <> VArray l) ->
     get_places h net key req = ([places_request key text], places_error)).
Proof.
  intros Hd Ht Htext. unfold get_places, get_places_run. rewrite Hd. cbn [bind].
  rewrite Ht, Htext. cbn [negb]. split; [|split].
  - intros e ->. reflexivity.
  - intros data status -> Hst Hok. cbn [bind]. unfold places_of. rewrite Hst.
    cbn [bind]. rewrite Hok. reflexivity.
  - intros data results -> Hst Hres Hnot. cbn [bind]. unfold places_of.
    rewrite Hst. cbn [bind is_string]. rewrite String.eqb_refl. cbn [negb].
    rewrite Hres. cbn [bind].
    destruct results; try reflexivity. exfalso. eapply Hnot. reflexivity.
Qed.

(** One result that cannot be summarised spoils the whole answer: for a
    destination that converts to a text, when the results contain [null],
    or a place whose [photos] is an empty array (which is truthy, and has
    no first element to read the reference from), the handler answers 500
    and none of the other places. *)
Theorem get_places_spoiled_by_one_result (h : host) (net : network) (key req : value)
    (destination : value) (text : string) (data : value) (results : list value)
    (place : value) :
  get h req "destination" = Normal destination ->
  to_boolean destination = true ->
  to_string h destination = Normal text ->
  net (places_request key text) = Normal data ->
  get h data "status" = Normal (VStr "OK") ->
  get h data "results" = Normal (VArray results) ->
  In place results ->
  place = VNull \/ (exists p, place = VObject p /\ p !! "photos" = Some (VArray [])) ->
  get_places h net key req = ([places_request key text], places_error).
Proof.
  intros Hd Ht Htext Hnet Hst Hres Hin Hbad.
  assert (Hthrow : place_summary h key place = Throw TypeError).
  { destruct Hbad as [->|(p & -> & Hp)]; [reflexivity|].
    unfold place_summary. cbn [get bind].
    rewrite (member_own _ _ _ Hp). reflexivity. }
  destruct (map_completion_throw _ _ _ _ Hin Hthrow) as [e He].
  unfold get_places, get_places_run. rewrite Hd. cbn [bind]. rewrite Ht, Htext.
  cbn [negb]. rewrite Hnet. cbn [bind]. unfold places_of. rewrite Hst.
  cbn [bind is_string]. rewrite String.eqb_refl. cbn [negb].
  rewrite Hres. cbn [bind array_map]. rewrite He. reflexivity.
Qed.

(** A 200 answer of the places handler is an array with one summary for
    each result of the service, in the service's order; every summary is
    built with the members name, address, rating and photo and no other
    (a member that is [undefined] is dropped when the answer is written as
    JSON); for a result that is an object they are its [name],
    [formatted_address] and [rating], and the photo is [null] when it has
    no photos. *)
Theorem get_places_summarises_every_result (h : host) (net : network) (key req : value)
    (r : response) :
  snd (get_places h net key req) = Sent r -> status r = 200%nat ->
  exists destination text data results summaries,
    get h req "destination" = Normal destination /\
    to_string h destination = Normal text /\
    net (places_request key text) = Normal data /\
    get h data "results" = Normal (VArray results) /\
    body r = VArray summaries /\
    length summaries = length results /\
    forall i place,
      results !! i = Some place ->
      exists summary,
        summaries !! i = Some summary /\
        member_names summary = {[ "name"; "address"; "rating"; "photo" ]} /\
        forall p, place = VObject p ->
          field "name" summary = member p "name" /\
          field "address" summary = member p "formatted_address" /\
          field "rating" summary = member p "rating" /\
          (to_boolean (member p "photos") = false -> field "photo" summary = VNull).
Proof.
  intros H Hs.
  destruct (get_places_ok_inv h net key req r H Hs)
    as (destination & text & data & results & summaries
        & Hd & _ & Htext & _ & Hnet & _ & Hres & Hbody & Hall).
  exists destination, text, data, results, summaries.
  split; [exact Hd|]. split; [exact Htext|].
  split; [exact Hnet|]. split; [exact Hres|]. split; [exact Hbody|].
  split; [symmetry; eapply Forall2_length; exact Hall|].
  intros i place Hi.
  destruct (Forall2_lookup_l _ _ _ _ _ Hall Hi) as (summary & Hsum & Hplace).
  exists summary. split; [exact Hsum|].
  split; [eapply place_summary_members; exact Hplace|].
  intros p ->.
  destruct (place_summary_of_object h key p summary Hplace) as (Hn & Ha & Hr & Hp & _).
  repeat split; assumption.
Qed.

(** The places handler hands the server's API key to the client: in a 200
    answer, the summary of every result that has photos carries a photo
    address that ends with the text of the key in clear. *)
Theorem get_places_discloses_api_key (h : host) (net : network) (key req : value)
    (r : response) :
  snd (get_places h net key req) = Sent r -> status r = 200%nat ->
  exists destination text data results summaries,
    get h req "destination" = Normal destination /\
    to_string h destination = Normal text /\
    net (places_request key text) = Normal data /\
    get h data "results" = Normal (VArray results) /\
    body r = VArray summaries /\
    forall i p,
      results !! i = Some (VObject p) ->
      to_boolean (member p "photos") = true ->
      exists summary reference keytext,
        summaries !! i = Some summary /\
        to_string h key = Normal keytext /\
        field "photo" summary
        = VStr (photo_url_prefix ++ reference ++ "&key=" ++ keytext).
Proof.
  intros H Hs.
  destruct (get_places_ok_inv h net key req r H Hs)
    as (destination & text & data & results & summaries
        & Hd & _ & Htext & _ & Hnet & _ & Hres & Hbody & Hall).
  exists destination, text, data, results, summaries.
  split; [exact Hd|]. split; [exact Htext|].
  split; [exact Hnet|]. split; [exact Hres|]. split; [exact Hbody|].
  intros i p Hi Hphotos.
  destruct (Forall2_lookup_l _ _ _ _ _ Hall Hi) as (summary & Hsum & Hplace).
  destruct (place_summary_of_object h key p summary Hplace) as (_ & _ & _ & _ & Hp).
  destruct (Hp Hphotos) as (first & ref & reference & keytext & _ & _ & _ & Hkey & Hphoto).
  exists summary, reference, keytext. repeat split; assumption.
Qed.

(** ** The budget handler, further *)

Lemma mul_nan_l (x : float) : (PrimFloat.nan * x)%float = PrimFloat.nan.
Proof.
  rewrite <- (SF2Prim_Prim2SF (PrimFloat.nan * x)). rewrite mul_spec.
  change (Prim2SF PrimFloat.nan) with S754_nan. reflexivity.
Qed.

(** The budget handler never sends more than one request, and none when it
    refuses the request: either nothing was sent and the answer is the 400
    of the validation (or the request could not be read at all), or exactly
    one request went to the distance service and the answer is a 200 or
    the 500 of the distance error. *)
Theorem calculate_budget_sends_one_request (h : host) (net : network)
    (key req : value) :
  (fst (calculate_budget h net key req) = [] /\
   (snd (calculate_budget h net key req) = invalid_budget \/
    exists e, snd (calculate_budget h net key req) = Unanswered e)) \/
  (exists origins destinations,
     fst (calculate_budget h net key req)
     = [ {| url := distance_matrix_url;
            params := [ ("origins", origins); ("destinations", destinations);
                        ("key", key) ] |} ] /\
     (answered_status (snd (calculate_budget h net key req)) = Some 200%nat \/
      snd (calculate_budget h net key req) = distance_error)).
Proof.
  unfold calculate_budget, calculate_budget_run, breakdown, js_mul, js_div, bind.
  split_goal; cbn [fst snd];
    try (left; split; [reflexivity|]; (left; reflexivity) || (right; eexists; reflexivity));
    right; eexists _, _; (split; [reflexivity|]);
    (left; reflexivity) || (right; reflexivity).
Qed.

(** Nothing checks the number of travelers: when it converts to NaN (it is
    absent, or a text that is no number), a request that passes validation
    and whose other numbers convert is still answered 200, and the
    transportation, food and hotel costs and the total are all NaN. *)
Theorem budget_without_travelers_is_nan (h : host) (net : network) (key : value)
    (props : gmap string value) (tier mode subtype : string)
    (level table rate data distance : value) (metres nights shoppingCost : float) :
  props !! "budgetLevel" = Some (VStr tier) ->
  props !! "transportMode" = Some (VStr mode) ->
  props !! "transportSubtype" = Some (VStr subtype) ->
  own pricing tier = Some level ->
  own transportPricing mode = Some table ->
  own table subtype = Some rate ->
  net (distance_request key props) = Normal data ->
  extract_distance h data = Normal distance ->
  to_number h distance = Normal metres ->
  to_number h (member props "travelers") = Normal PrimFloat.nan ->
  to_number h (member props "nights") = Normal nights ->
  shopping_cost h (member props "shoppingAmount") = Normal shoppingCost ->
  let answer := snd (calculate_budget h net key (VObject props)) in
  answered_status answer = Some 200%nat /\
  cost "transportationCost" answer = Some PrimFloat.nan /\
  cost "foodCost" answer = Some PrimFloat.nan /\
  cost "hotelCost" answer = Some PrimFloat.nan /\
  cost "totalCost" answer = Some PrimFloat.nan.
Proof.
  intros Hl Hm Hs Hlevel Htable Hrate Hnet Hdist Hmetres Hnan Hnights Hshopping answer.
  subst answer.
  destruct (budget_of_distance h net key props tier mode subtype level table rate
              data distance metres PrimFloat.nan nights shoppingCost)
    as (r & f & hc & _ & _ & _ & ->); try assumption.
  unfold formula_breakdown. cbn [snd].
  rewrite !mul_nan_l, add_nan_r.
  repeat split; reflexivity.
Qed.

(** A transport that is not in the table is refused before anything is
    sent: with a known tier, a mode that is neither an entry of
    [transportPricing] nor a name that [Object.prototype] carries, or a
    known mode with a fare class that is neither an entry of the mode's
    table nor such a name, is answered 400 and no request goes out. *)
Theorem budget_rejects_unknown_transport (h : host) (net : network) (key : value)
    (props : gmap string value) (tier mode : string) (level : value) :
  props !! "budgetLevel" = Some (VStr tier) ->
  props !! "transportMode" = Some (VStr mode) ->
  own pricing tier = Some level ->
  (own transportPricing mode = None /\
   object_prototype_member (VBuiltin ObjectPrototype) mode = VUndefined) \/
  (exists table subtype,
     own transportPricing mode = Some table /\
     props !! "transportSubtype" = Some (VStr subtype) /\
     own table subtype = None /\
     object_prototype_member (VBuiltin ObjectPrototype) subtype = VUndefined) ->
  calculate_budget h net key (VObject props) = ([], invalid_budget).
Proof.
  intros Hl Hm Hlevel Hunknown.
  unfold calculate_budget, calculate_budget_run. cbn [get bind].
  rewrite (member_own _ _ _ Hl), (member_own _ _ _ Hm).
  unfold get_computed. cbn [to_string bind].
  assert (Hfound : get h pricing tier = Normal level /\ to_boolean level = true).
  { unfold pricing, obj in *. cbn [get own] in *. unfold member. rewrite Hlevel.
    apply elem_of_list_to_map_2 in Hlevel. apply list_elem_of_In in Hlevel.
    cbn [In] in Hlevel.
    destruct Hlevel as [[= <- <-]|[[= <- <-]|[]]]; split; reflexivity. }
  destruct Hfound as [-> Htruthy]. cbn [bind]. rewrite Htruthy. cbn [negb].
  destruct Hunknown as [[Hown Hproto]|(table & subtype & Htable & Hs & Hown & Hproto)].
  - unfold transportPricing, obj in *. cbn [get own] in *. unfold member.
    rewrite Hown, Hproto. reflexivity.
  - rewrite (member_own _ _ _ Hs). cbn [to_string bind].
    assert (Hmode : get h transportPricing mode = Normal table /\ to_boolean table = true
                    /\ exists entries, table = VObject entries).
    { unfold transportPricing, obj in *. cbn [get own] in *. unfold member.
      rewrite Htable.
      apply elem_of_list_to_map_2 in Htable. apply list_elem_of_In in Htable.
      cbn [In] in Htable.
      destruct Htable as [[= <- <-]|[[= <- <-]|[[= <- <-]|[]]]];
        repeat split; eexists; reflexivity. }
    destruct Hmode as (-> & Htt & entries & ->). cbn [bind]. rewrite Htt. cbn [negb].
    cbn [get own] in *. unfold member. rewrite Hown, Hproto. reflexivity.
Qed.

(** ** Registration and login, further *)

Lemma nonempty_truthy (s : string) : s <> "" -> to_boolean (VStr s) = true.
Proof. destruct s; [contradiction|reflexivity]. Qed.

Lemma nonempty_not_empty (s : string) : s <> "" -> is_empty s = false.
Proof. destruct s; [contradiction|reflexivity]. Qed.

Lemma find_none_existsb {A} (f : A -> bool) (l : list A) :
  List.find f l = None -> existsb f l = false.
Proof.
  induction l as [|a l IH]; cbn [List.find existsb]; [reflexivity|].
  destruct (f a); [discriminate|]. exact IH.
Qed.

Lemma find_app_last {A} (f : A -> bool) (l : list A) (a : A) :
  List.find f l = None -> f a = true -> List.find f (l ++ [a]) = Some a.
Proof.
  induction l as [|x l IH]; cbn [List.find app]; intros Hl Ha.
  - rewrite Ha. reflexivity.
  - destruct (f x); [discriminate|]. apply IH; assumption.
Qed.

(** Both login handlers, on a request whose email and password are
    non-empty texts. *)
Lemma login_of_text_credentials (h : host) (secret : string) (d : db) (w : world)
    (req : request) (props : gmap string value) (e p : string) :
  req_body req = VObject props ->
  props !! "email" = Some (VStr e) -> props !! "password" = Some (VStr p) ->
  e <> "" -> p <> "" ->
  let answer success :=
    match first_with_email d e with
    | None => (invalid_credentials, d)
    | Some u =>
        if password_matches h p u then
          match jwt_sign h (now w) (user_id u) secret with
          | Normal token => (success token u, d)
          | Throw _ => (internal_error, d)
          end
        else (invalid_credentials, d)
    end in
  login h secret d w req = answer login_success /\
  router_login h secret d w req = answer router_login_success.
Proof.
  intros Hbody He Hp Hne Hnp answer. subst answer.
  unfold login, router_login, settle. rewrite Hbody. cbn [get bind].
  rewrite (member_own _ _ _ He), (member_own _ _ _ Hp).
  rewrite (nonempty_truthy e Hne), (nonempty_truthy p Hnp). cbn [negb orb].
  unfold User_findOne, try_catch, first_with_email, password_matches. cbn [bind].
  destruct (List.find _ (users d)) as [u|]; [|split; reflexivity].
  cbn [bcrypt_compare bind].
  destruct (String.eqb _ (ph_digest (user_password u))); cbn [negb];
    [|split; reflexivity].
  destruct (jwt_sign h (now w) (user_id u) secret); split; reflexivity.
Qed.

(** Registering and then logging in.  A request with a non-empty name, a
    non-empty email that no user of the store has, and a non-empty
    password is answered 201 by server.js and adds exactly one user: the
    name and email of the request, and the bcrypt hash of cost 10 of its
    password under the salt drawn.  With a secret configured, a later login
    with that email and password is answered 200, with the new user and a
    token for the new user's id; the login changes nothing. *)
Theorem register_then_login (h : host) (secret : string) (d : db) (w : world)
    (req : request) (props : gmap string value) (name e p : string) :
  req_body req = VObject props ->
  props !! "name" = Some (VStr name) ->
  props !! "email" = Some (VStr e) ->
  props !! "password" = Some (VStr p) ->
  name <> "" -> e <> "" -> p <> "" -> secret <> "" ->
  first_with_email d e = None ->
  let u := {| user_id := fresh w; user_name := Some name; user_email := Some e;
              user_password := {| ph_cost := 10; ph_salt := salt w;
                                  ph_digest := bcrypt_digest h 10 (salt w) p |};
              user_travelHistory := VUndefined |} in
  let d1 := {| users := (users d ++ [u])%list; travels := travels d |} in
  signup h d w req = (registered, d1) /\
  forall w2 req2 props2,
    req_body req2 = VObject props2 ->
    props2 !! "email" = Some (VStr e) -> props2 !! "password" = Some (VStr p) ->
    login h secret d1 w2 req2
    = (login_success (signing_input (now w2) (fresh w) ++ "."
                      ++ jwt_signature h secret (signing_input (now w2) (fresh w))) u,
       d1).
Proof.
  intros Hbody Hn He Hp Hnn Hne Hnp Hns Hfresh u d1. split.
  - unfold signup, settle. rewrite Hbody. cbn [get bind].
    rewrite (member_own _ _ _ Hn), (member_own _ _ _ He), (member_own _ _ _ Hp).
    rewrite (nonempty_truthy name Hnn), (nonempty_truthy e Hne), (nonempty_truthy p Hnp).
    cbn [negb orb]. unfold User_findOne, try_catch. cbn [bind].
    unfold first_with_email in Hfresh. rewrite Hfresh.
    cbn [bcrypt_hash bind]. unfold User_save. cbn [cast_string bind].
    rewrite (find_none_existsb _ _ Hfresh). reflexivity.
  - intros w2 req2 props2 Hbody2 He2 Hp2.
    rewrite (proj1 (login_of_text_credentials h secret d1 w2 req2 props2 e p
                      Hbody2 He2 Hp2 Hne Hnp)).
    assert (Hfound : first_with_email d1 e = Some u).
    { unfold first_with_email, d1. cbn [users].
      apply find_app_last; [exact Hfresh|]. cbn [user_email u option_string_eqb].
      apply String.eqb_refl. }
    rewrite Hfound.
    assert (Hmatch : password_matches h p u = true).
    { unfold password_matches, u. cbn [user_password ph_cost ph_salt ph_digest].
      apply String.eqb_refl. }
    rewrite Hmatch. unfold jwt_sign. rewrite (nonempty_not_empty secret Hns).
    reflexivity.
Qed.

(** A login that fails does not say why: for an email that no user has and
    for a password that does not match the hash of the user who has it,
    both login handlers give the same answer, 400 with [Invalid email or
    password!], and change nothing. *)
Theorem login_failures_look_alike (h : host) (secret : string) (d : db) (w : world)
    (req : request) (props : gmap string value) (e p : string) :
  req_body req = VObject props ->
  props !! "email" = Some (VStr e) -> props !! "password" = Some (VStr p) ->
  e <> "" -> p <> "" ->
  first_with_email d e = None \/
  (exists u, first_with_email d e = Some u /\ password_matches h p u = false) ->
  login h secret d w req = (invalid_credentials, d) /\
  router_login h secret d w req = (invalid_credentials, d).
Proof.
  intros Hbody He Hp Hne Hnp Hfail.
  destruct (login_of_text_credentials h secret d w req props e p Hbody He Hp Hne Hnp)
    as [-> ->].
  destruct Hfail as [->|(u & -> & ->)]; split; reflexivity.
Qed.

(** Without a secret no login succeeds: with the empty secret neither
    login handler ever answers 200. *)
Theorem no_login_without_secret (h : host) (d : db) (w : world) (req : request) :
  answered_status (fst (login h "" d w req)) <> Some 200%nat /\
  answered_status (fst (router_login h "" d w req)) <> Some 200%nat.
Proof.
  split; intros H.
  - destruct (login h "" d w req) as [[r|e] d'] eqn:Hrun; [|discriminate H].
    injection H as H.
    destruct (login_inv h "" d d' w req r Hrun H) as (u & token & _ & Hsign & _).
    discriminate Hsign.
  - destruct (router_login h "" d w req) as [[r|e] d'] eqn:Hrun; [|discriminate H].
    injection H as H.
    destruct (router_login_inv h "" d d' w req r Hrun H) as (u & token & _ & Hsign & _).
    discriminate Hsign.
Qed.

(** server.js refuses a login in which the email or the password is
    missing or empty with 400 [All fields are required!], before it looks
    at the store. *)
Theorem login_requires_all_fields (h : host) (secret : string) (d : db) (w : world)
    (req : request) (props : gmap string value) :
  req_body req = VObject props ->
  to_boolean (member props "email") && to_boolean (member props "password") = false ->
  login h secret d w req = (all_fields_required, d).
Proof.
  intros Hbody Hmissing. unfold login, settle, bind. rewrite Hbody. cbn [get].
  destruct (to_boolean (member props "email")),
           (to_boolean (member props "password")); try discriminate; reflexivity.
Qed.

(** ** The gate and the routes behind it *)

(** The gate takes the second word of the header for the token whatever
    the first word is, and looks at nothing after a second space; a header
    of one word, and no header, are answered 401. *)
Theorem gate_reads_second_word (h : host) (secret : string) (w : world)
    (scheme token rest : string) (b : value) :
  occurs " " scheme = false -> occurs " " token = false ->
  authenticateToken h secret w
    {| authorization := Some (scheme ++ " " ++ token); req_body := b |}
  = authenticateToken h secret w (bearer token b) /\
  authenticateToken h secret w
    {| authorization := Some (scheme ++ " " ++ token ++ " " ++ rest); req_body := b |}
  = authenticateToken h secret w (bearer token b) /\
  authenticateToken h secret w {| authorization := Some scheme; req_body := b |}
  = inl access_denied /\
  authenticateToken h secret w {| authorization := None; req_body := b |}
  = inl access_denied.
Proof.
  intros Hscheme Htoken.
  assert (Hbearer : nth_error (split_on " " ("Bearer " ++ token)) 1 = Some token).
  { change ("Bearer " ++ token) with ("Bearer" ++ " " ++ token).
    rewrite split_on_app_sep by reflexivity.
    rewrite split_on_clean by assumption. reflexivity. }
  unfold authenticateToken, bearer. cbn [authorization]. rewrite Hbearer.
  split; [|split; [|split]].
  - rewrite split_on_app_sep by assumption.
    rewrite split_on_clean by assumption. reflexivity.
  - rewrite split_on_app_sep by assumption.
    rewrite split_on_app_sep by assumption. reflexivity.
  - rewrite split_on_clean by assumption. reflexivity.
  - reflexivity.
Qed.

(** Behind the gate nothing happens without a token that verifies: for a
    request that the gate refuses, /save-travel, /travel-history and
    /user-data answer what the gate answered, which is the 401 or the 403,
    and leave the store as it was. *)
Theorem refused_requests_do_nothing (h : host) (secret : string) (d : db) (w : world)
    (req : request) (refusal : outcome) :
  authenticateToken h secret w req = inl refusal ->
  (refusal = access_denied \/ refusal = invalid_token) /\
  save_travel h secret d w req = (refusal, d) /\
  travel_history h secret d w req = (refusal, d) /\
  user_data h secret d w req = (refusal, d).
Proof.
  intros Hgate. split; [eapply authenticateToken_refusal; exact Hgate|].
  unfold save_travel, travel_history, user_data, authenticated. rewrite Hgate.
  repeat split.
Qed.

(** /save-travel refuses a request in which the destination, the budget
    or the number of nights is missing, empty or zero with 400 [All fields
    are required!], and stores nothing. *)
Theorem save_travel_requires_all_fields (h : host) (secret : string) (d : db)
    (w : world) (req : request) (decoded : claims) (props : gmap string value) :
  authenticateToken h secret w req = inr decoded ->
  req_body req = VObject props ->
  to_boolean (member props "destination") && to_boolean (member props "budget")
    && to_boolean (member props "nights") = false ->
  save_travel h secret d w req = (all_fields_required, d).
Proof.
  intros Hgate Hbody Hmissing. unfold save_travel, authenticated. rewrite Hgate.
  unfold save_travel_handler, settle, bind. rewrite Hbody. cbn [get].
  destruct (to_boolean (member props "destination")),
           (to_boolean (member props "budget")),
           (to_boolean (member props "nights")); try discriminate; reflexivity.
Qed.

Lemma truthy_number (x : float) :
  to_boolean (VNum x) = true -> PrimFloat.is_nan x = false.
Proof.
  cbn [to_boolean]. destruct (PrimFloat.is_zero x), (PrimFloat.is_nan x);
    cbn; congruence.
Qed.

Lemma Travel_find_sorted_other (d : db) (t : travel) (id : oid) :
  travel_userId t <> id ->
  Travel_find_sorted {| users := users d; travels := (travels d ++ [t])%list |} id
  = Travel_find_sorted d id.
Proof.
  intros Hne. unfold Travel_find_sorted. cbn [travels].
  rewrite List.filter_app. cbn [List.filter].
  destruct (N.eqb_spec (travel_userId t) id) as [Heq|_]; [contradiction|].
  rewrite app_nil_r. reflexivity.
Qed.

Lemma Travel_find_sorted_own (d : db) (t : travel) :
  In t (Travel_find_sorted {| users := users d; travels := (travels d ++ [t])%list |}
          (travel_userId t)).
Proof.
  unfold Travel_find_sorted. cbn [travels].
  eapply Permutation_in; [symmetry; apply merge_sort_Permutation|].
  apply filter_In. split; [apply in_or_app; right; left; reflexivity|].
  apply N.eqb_refl.
Qed.

(** Saving a trip and fetching the history.  For a request that passes the
    gate, with a non-empty text as destination and non-zero numbers as
    budget and nights, /save-travel answers 201 and adds exactly one
    record: the three members of the request, the id of the token as owner
    and the server's clock as date.  Afterwards the history of the same
    user has that record, and the history of any other user is what it was
    before. *)
Theorem saved_trip_shows_in_own_history (h : host) (secret : string) (d : db)
    (w : world) (req : request) (decoded : claims) (props : gmap string value)
    (destination : string) (budget nights : float) :
  authenticateToken h secret w req = inr decoded ->
  req_body req = VObject props ->
  props !! "destination" = Some (VStr destination) ->
  props !! "budget" = Some (VNum budget) ->
  props !! "nights" = Some (VNum nights) ->
  destination <> "" ->
  to_boolean (VNum budget) = true -> to_boolean (VNum nights) = true ->
  let t := {| travel_id := fresh w; travel_userId := claim_id decoded;
              travel_destination := Some destination; travel_budget := Some budget;
              travel_date := now w; travel_nights := Some nights |} in
  let d1 := {| users := users d; travels := (travels d ++ [t])%list |} in
  save_travel h secret d w req
  = (json 201 [ ("message", VStr "Travel data saved successfully!") ], d1) /\
  forall w2 req2 decoded2,
    authenticateToken h secret w2 req2 = inr decoded2 ->
    (claim_id decoded2 = claim_id decoded ->
     exists l,
       travel_history h secret d1 w2 req2
       = (Sent {| status := 200; body := VArray (map travel_document l) |}, d1) /\
       In t l) /\
    (claim_id decoded2 <> claim_id decoded ->
     fst (travel_history h secret d1 w2 req2) = fst (travel_history h secret d w2 req2)).
Proof.
  intros Hgate Hbody Hd Hb Hn Hne Htb Htn t d1. split.
  - unfold save_travel, authenticated. rewrite Hgate.
    unfold save_travel_handler, settle. rewrite Hbody. cbn [get bind].
    rewrite (member_own _ _ _ Hd), (member_own _ _ _ Hb), (member_own _ _ _ Hn).
    rewrite (nonempty_truthy destination Hne), Htb, Htn. cbn [negb orb].
    unfold Travel_save, try_catch. cbn [cast_string cast_number bind].
    rewrite (truthy_number budget Htb), (truthy_number nights Htn). reflexivity.
  - intros w2 req2 decoded2 Hgate2. unfold travel_history, authenticated.
    rewrite Hgate2. unfold travel_history_handler. split.
    + intros Hsame. eexists. split; [reflexivity|].
      rewrite Hsame. exact (Travel_find_sorted_own d t).
    + intros Hother. cbn [fst]. unfold d1.
      rewrite Travel_find_sorted_other; [reflexivity|].
      cbn [travel_userId t]. congruence.
Qed.

(** ** What the handlers keep *)

Lemma extends_refl (d : db) : extends d d.
Proof.
  exists [], []. rewrite !app_nil_r. repeat split. cbn. lia.
Qed.

Lemma User_save_extends (h : host) (d d' : db) (id : oid) (name email : value)
    (password : pwhash) :
  User_save h d id name email password = Normal d' ->
  extends d d' /\
  exists u, users d' = (users d ++ [u])%list /\
            existsb (fun x => option_string_eqb (user_email x) (user_email u)) (users d)
            = false.
Proof.
  unfold User_save, bind.
  destruct (cast_string h name) as [n|]; [|discriminate].
  destruct (cast_string h email) as [e|]; [|discriminate].
  destruct (existsb _ (users d)) eqn:Hex; [discriminate|].
  intros [= <-]. split.
  - eexists [_], []. cbn [users travels]. rewrite app_nil_r. repeat split. cbn. lia.
  - eexists. split; [reflexivity|]. exact Hex.
Qed.

Lemma Travel_save_extends (h : host) (d d' : db) (id userId : oid)
    (destination budget : value) (date : N) (nights : value) :
  Travel_save h d id userId destination budget date nights = Normal d' ->
  extends d d'.
Proof.
  unfold Travel_save, bind.
  destruct (cast_string h destination); [|discriminate].
  destruct (cast_number h budget); [|discriminate].
  destruct (cast_number h nights); [|discriminate].
  intros [= <-]. eexists [], [_]. cbn [users travels]. rewrite app_nil_r.
  repeat split. cbn. lia.
Qed.

(** What a signup handler does to the store: nothing, or what [save] did. *)
Lemma signup_store (h : host) (d : db) (w : world) (req : request) :
  snd (signup h d w req) = d \/
  exists name email password,
    User_save h d (fresh w) name email password = Normal (snd (signup h d w req)).
Proof.
  unfold signup, settle, try_catch, bind.
  destruct (get h (req_body req) "name") as [name|]; [|left; reflexivity].
  destruct (get h (req_body req) "email") as [email|]; [|left; reflexivity].
  destruct (get h (req_body req) "password") as [password|]; [|left; reflexivity].
  destruct (negb (to_boolean name) || negb (to_boolean email)
            || negb (to_boolean password)); [left; reflexivity|].
  destruct (User_findOne h d email) as [[u|]|]; try (left; reflexivity).
  destruct (bcrypt_hash h (salt w) password 10) as [hashed|]; [|left; reflexivity].
  destruct (User_save h d (fresh w) name email hashed) as [d'|] eqn:Hsave;
    [|left; reflexivity].
  right. exists name, email, hashed. exact Hsave.
Qed.

Lemma router_signup_store (h : host) (d : db) (w : world) (req : request) :
  snd (router_signup h d w req) = d \/
  exists name email password,
    User_save h d (fresh w) name email password = Normal (snd (router_signup h d w req)).
Proof.
  unfold router_signup, RouterUser_save, settle, try_catch, bind.
  destruct (get h (req_body req) "name") as [name|]; [|left; reflexivity].
  destruct (get h (req_body req) "email") as [email|]; [|left; reflexivity].
  destruct (get h (req_body req) "password") as [password|]; [|left; reflexivity].
  destruct (bcrypt_hash h (salt w) password 10) as [hashed|]; [|left; reflexivity].
  destruct (User_save h d (fresh w) name email hashed) as [d'|] eqn:Hsave;
    [|left; reflexivity].
  right. exists name, email, hashed. exact Hsave.
Qed.

Lemma save_travel_store (h : host) (secret : string) (d : db) (w : world) (req : request) :
  snd (save_travel h secret d w req) = d \/
  exists userId destination budget nights,
    Travel_save h d (fresh w) userId destination budget (now w) nights
    = Normal (snd (save_travel h secret d w req)).
Proof.
  unfold save_travel, authenticated.
  destruct (authenticateToken h secret w req) as [refused|decoded]; [left; reflexivity|].
  unfold save_travel_handler, settle, try_catch, bind.
  destruct (get h (req_body req) "destination") as [destination|]; [|left; reflexivity].
  destruct (get h (req_body req) "budget") as [budget|]; [|left; reflexivity].
  destruct (get h (req_body req) "nights") as [nights|]; [|left; reflexivity].
  destruct (negb (to_boolean destination) || negb (to_boolean budget)
            || negb (to_boolean nights)); [left; reflexivity|].
  destruct (Travel_save h d (fresh w) (claim_id decoded) destination budget (now w) nights)
    as [d'|] eqn:Hsave; [|left; reflexivity].
  right. exists (claim_id decoded), destination, budget, nights. exact Hsave.
Qed.

Lemma read_only_login (h : host) (secret : string) (d : db) (w : world) (req : request) :
  snd (login h secret d w req) = d /\ snd (router_login h secret d w req) = d.
Proof.
  unfold login, router_login, settle, try_catch, bind.
  split; split_goal; reflexivity.
Qed.

(** The store only grows, and by one document at a time.  The two login
    handlers, /travel-history and /user-data leave it exactly as it was;
    the two signup handlers and /save-travel leave every user and every
    travel record in place and add at most one document at the end. *)
Theorem store_is_append_only (h : host) (secret : string) (d : db) (w : world)
    (req : request) :
  snd (login h secret d w req) = d /\
  snd (router_login h secret d w req) = d /\
  snd (travel_history h secret d w req) = d /\
  snd (user_data h secret d w req) = d /\
  extends d (snd (signup h d w req)) /\
  extends d (snd (router_signup h d w req)) /\
  extends d (snd (save_travel h secret d w req)).
Proof.
  destruct (read_only_login h secret d w req) as [Hl Hr].
  split; [exact Hl|]. split; [exact Hr|].
  split; [|split; [|split; [|split]]].
  - unfold travel_history, authenticated, travel_history_handler.
    destruct (authenticateToken h secret w req); reflexivity.
  - unfold user_data, authenticated, user_data_handler.
    destruct (authenticateToken h secret w req); reflexivity.
  - destruct (signup_store h d w req) as [->|(n & e & p & Hsave)];
      [apply extends_refl|]. eapply User_save_extends. exact Hsave.
  - destruct (router_signup_store h d w req) as [->|(n & e & p & Hsave)];
      [apply extends_refl|]. eapply User_save_extends. exact Hsave.
  - destruct (save_travel_store h secret d w req) as [->|(u & n & b & e & Hsave)];
      [apply extends_refl|]. eapply Travel_save_extends. exact Hsave.
Qed.

Lemma existsb_false_not_in (l : list user) (e : option string) :
  existsb (fun x => option_string_eqb (user_email x) e) l = false ->
  ~ In e (map user_email l).
Proof.
  induction l as [|x l IH]; cbn [existsb map In]; [tauto|].
  intros H [Heq|Hin].
  - rewrite Heq, option_string_eqb_refl in H. discriminate H.
  - destruct (option_string_eqb (user_email x) e); [discriminate H|]. exact (IH H Hin).
Qed.

Lemma User_save_keeps_emails_distinct (h : host) (d d' : db) (id : oid)
    (name email : value) (password : pwhash) :
  NoDup (map user_email (users d)) ->
  User_save h d id name email password = Normal d' ->
  NoDup (map user_email (users d')).
Proof.
  intros Hnd Hsave.
  destruct (User_save_extends h d d' id name email password Hsave)
    as (_ & u & -> & Hex).
  rewrite map_app. cbn [map].
  apply NoDup_app. split; [exact Hnd|].
  split.
  - intros x Hx Hu. apply list_elem_of_In in Hx.
    apply list_elem_of_singleton in Hu. subst x.
    exact (existsb_false_not_in _ _ Hex Hx).
  - apply NoDup_singleton.
Qed.

(** No two users under one email.  When the emails of the store are
    pairwise distinct (a user without an email counting as one email),
    they still are after any request to either signup handler. *)
Theorem emails_stay_distinct (h : host) (d : db) (w : world) (req : request) :
  NoDup (map user_email (users d)) ->
  NoDup (map user_email (users (snd (signup h d w req)))) /\
  NoDup (map user_email (users (snd (router_signup h d w req)))).
Proof.
  intros Hnd. split.
  - destruct (signup_store h d w req) as [->|(n & e & p & Hsave)]; [exact Hnd|].
    eapply User_save_keeps_emails_distinct; eassumption.
  - destruct (router_signup_store h d w req) as [->|(n & e & p & Hsave)]; [exact Hnd|].
    eapply User_save_keeps_emails_distinct; eassumption.
Qed.

(** /user-data answers with the document of the user whose id the token
    carries, without the password: for a request that passes the gate it
    answers 200 with [null] when the store has no user of that id, and
    otherwise with the name and the email of the first user of that id,
    under their id. *)
Theorem user_data_is_the_token_user (h : host) (secret : string) (d : db) (w : world)
    (req : request) (decoded : claims) :
  authenticateToken h secret w req = inr decoded ->
  ((forall u, In u (users d) -> user_id u <> claim_id decoded) ->
   user_data h secret d w req = (Sent {| status := 200; body := VNull |}, d)) /\
  (forall u,
     User_findById d (claim_id decoded) = Some u ->
     In u (users d) /\ user_id u = claim_id decoded /\
     exists document,
       user_data h secret d w req = (Sent {| status := 200; body := document |}, d) /\
       field "_id" document = VObjectId (claim_id decoded) /\
       field "name" document = opt_value VStr (user_name u) /\
       field "email" document = opt_value VStr (user_email u) /\
       has_member "password" document = false).
Proof.
  intros Hgate. unfold user_data, authenticated. rewrite Hgate.
  unfold user_data_handler. split.
  - intros Hnone.
    destruct (User_findById d (claim_id decoded)) as [u|] eqn:Hfind; [|reflexivity].
    unfold User_findById in Hfind. apply find_some in Hfind as [Hin Hid].
    apply N.eqb_eq in Hid. exfalso. exact (Hnone u Hin Hid).
  - intros u Hfind. rewrite Hfind.
    unfold User_findById in Hfind. apply find_some in Hfind as [Hin Hid].
    apply N.eqb_eq in Hid. split; [exact Hin|]. split; [exact Hid|].
    eexists. split; [reflexivity|]. rewrite <- Hid.
    split; [|split; [|split; [|apply user_document_hides_password]]];
      unfold user_without_password, document, opt_value; cbn [List.filter snd];
      destruct (user_name u), (user_email u), (user_travelHistory u); reflexivity.
Qed.

(** * The further properties at concrete requests *)

Lemma get_places_service_failures_witness :
  get_places sample_host places_denied (VStr "key") jaipur
  = ([places_request (VStr "key") "Jaipur"], places_failed).
Proof.
  destruct (get_places_service_failures sample_host places_denied (VStr "key") jaipur
              (VStr "Jaipur") "Jaipur") as (_ & Hstatus & _).
  - vm_compute. reflexivity.
  - reflexivity.
  - reflexivity.
  - eapply (Hstatus _ (VStr "REQUEST_DENIED")).
    + reflexivity.
    + vm_compute. reflexivity.
    + reflexivity.
Defined.

Lemma get_places_spoiled_by_one_result_witness :
  get_places sample_host place_without_photo (VStr "key") jaipur
  = ([places_request (VStr "key") "Jaipur"], places_error).
Proof.
  eapply (get_places_spoiled_by_one_result sample_host place_without_photo (VStr "key")
            jaipur (VStr "Jaipur") "Jaipur" _
            [ obj [ ("name", VStr "Amber Fort"); ("photos", VArray []) ] ]
            (obj [ ("name", VStr "Amber Fort"); ("photos", VArray []) ])).
  - vm_compute. reflexivity.
  - reflexivity.
  - reflexivity.
  - reflexivity.
  - vm_compute. reflexivity.
  - vm_compute. reflexivity.
  - left. reflexivity.
  - right. eexists. split; [reflexivity|]. vm_compute. reflexivity.
Defined.

Lemma get_places_summarises_every_result_witness :
  exists summaries,
    body sample_places_response = VArray summaries /\ length summaries = 2%nat.
Proof.
  destruct (get_places_summarises_every_result sample_host two_places (VStr "key") jaipur
              sample_places_response)
    as (destination & text & data & results & summaries
        & _ & _ & Hnet & Hres & Hbody & Hlen & _).
  - vm_compute. reflexivity.
  - vm_compute. reflexivity.
  - exists summaries. split; [exact Hbody|]. rewrite Hlen.
    unfold two_places in Hnet. injection Hnet as <-.
    assert (Hresults : VArray results = VArray [ VObject amber_fort; VObject hawa_mahal ]).
    { apply (f_equal (fun c => match c with Normal v => v | Throw _ => VNull end)) in Hres.
      rewrite <- Hres. vm_compute. reflexivity. }
    injection Hresults as ->. reflexivity.
Defined.

Lemma get_places_discloses_api_key_witness :
  exists summaries summary reference,
    body sample_places_response = VArray summaries /\
    summaries !! 0%nat = Some summary /\
    field "photo" summary = VStr (photo_url_prefix ++ reference ++ "&key=key").
Proof.
  destruct (get_places_discloses_api_key sample_host two_places (VStr "key") jaipur
              sample_places_response)
    as (destination & text & data & results & summaries
        & _ & _ & Hnet & Hres & Hbody & Hall).
  - vm_compute. reflexivity.
  - vm_compute. reflexivity.
  - unfold two_places in Hnet. injection Hnet as <-.
    assert (Hresults : VArray results = VArray [ VObject amber_fort; VObject hawa_mahal ]).
    { apply (f_equal (fun c => match c with Normal v => v | Throw _ => VNull end)) in Hres.
      rewrite <- Hres. vm_compute. reflexivity. }
    injection Hresults as ->.
    destruct (Hall 0%nat amber_fort)
      as (summary & reference & keytext & Hsum & Hkey & Hphoto).
    + reflexivity.
    + vm_compute. reflexivity.
    + exists summaries, summary, reference.
      split; [exact Hbody|]. split; [exact Hsum|].
      injection Hkey as <-. exact Hphoto.
Defined.

Lemma budget_without_travelers_is_nan_witness :
  cost "totalCost"
    (snd (calculate_budget sample_host (one_route (VNum 100000)) (VStr "key")
            (VObject example_without_travelers)))
  = Some PrimFloat.nan.
Proof.
  destruct (budget_without_travelers_is_nan sample_host (one_route (VNum 100000))
              (VStr "key") example_without_travelers "Mid-Range" "Bus" "AC Bus"
              _ _ _ _ _ 100000%float 3%float 0%float
              eq_refl eq_refl eq_refl eq_refl eq_refl eq_refl eq_refl eq_refl
              eq_refl eq_refl eq_refl eq_refl)
    as (_ & _ & _ & _ & Htotal).
  exact Htotal.
Defined.

Lemma budget_rejects_unknown_transport_witness :
  calculate_budget sample_host (one_route (VNum 100000)) (VStr "key")
    (VObject example_by_boat)
  = ([], invalid_budget).
Proof.
  eapply (budget_rejects_unknown_transport sample_host (one_route (VNum 100000))
            (VStr "key") example_by_boat "Mid-Range" "Boat").
  - vm_compute. reflexivity.
  - vm_compute. reflexivity.
  - vm_compute. reflexivity.
  - left. split; vm_compute; reflexivity.
Defined.

Lemma budget_rejects_unknown_tier_witness :
  calculate_budget sample_host (one_route (VNum 100000)) (VStr "key")
    (VObject example_on_a_budget)
  = ([], invalid_budget).
Proof.
  apply (budget_rejects_unknown_tier sample_host (one_route (VNum 100000))
           (VStr "key") example_on_a_budget "Budget");
    vm_compute; reflexivity.
Defined.

Lemma signup_requires_all_fields_witness :
  signup sample_host empty_db sample_world
    {| authorization := None; req_body := VObject sample_empty_password |}
  = (all_fields_required, empty_db).
Proof.
  apply (signup_requires_all_fields sample_host empty_db sample_world _
           sample_empty_password); [reflexivity|vm_compute; reflexivity].
Defined.

Lemma register_then_login_witness :
  exists d1,
    signup sample_host empty_db sample_world sample_signup = (registered, d1) /\
    answered_status (fst (login sample_host "secret" d1 sample_world sample_login))
    = Some 200%nat.
Proof.
  destruct (register_then_login sample_host "secret" empty_db sample_world sample_signup
              sample_signup_props "Asha" "asha@example.in" "pw")
    as [Hsignup Hlogin];
    try discriminate; try reflexivity.
  eexists. split; [exact Hsignup|].
  rewrite (Hlogin sample_world sample_login
             (list_to_map [ ("email", VStr "asha@example.in"); ("password", VStr "pw") ])
             eq_refl eq_refl eq_refl).
  reflexivity.
Defined.

Lemma login_failures_look_alike_witness :
  login sample_host "secret" sample_db sample_world
    {| authorization := None; req_body := VObject sample_wrong_password |}
  = (invalid_credentials, sample_db) /\
  router_login sample_host "secret" sample_db sample_world
    {| authorization := None; req_body := VObject sample_wrong_password |}
  = (invalid_credentials, sample_db).
Proof.
  apply (login_failures_look_alike sample_host "secret" sample_db sample_world _
           sample_wrong_password "asha@example.in" "wrong");
    try discriminate; try reflexivity.
  right. eexists. split; vm_compute; reflexivity.
Defined.

Lemma login_requires_all_fields_witness :
  login sample_host "secret" sample_db sample_world
    {| authorization := None; req_body := VObject sample_no_password |}
  = (all_fields_required, sample_db).
Proof.
  apply (login_requires_all_fields sample_host "secret" sample_db sample_world _
           sample_no_password); [reflexivity|vm_compute; reflexivity].
Defined.

Lemma gate_reads_second_word_witness :
  authenticateToken sample_host "secret" sample_world
    {| authorization := Some ("Token " ++ sample_token ++ " and more"); req_body := VNull |}
  = inr sample_claims.
Proof.
  destruct (gate_reads_second_word sample_host "secret" sample_world "Token" sample_token
              "and more" VNull) as (_ & Hrest & _).
  - reflexivity.
  - vm_compute. reflexivity.
  - change ("Token " ++ sample_token ++ " and more")
      with ("Token" ++ " " ++ sample_token ++ " " ++ "and more").
    rewrite Hrest. vm_compute. reflexivity.
Defined.

Lemma refused_requests_do_nothing_witness :
  save_travel sample_host "secret" sample_db sample_world
    {| authorization := None; req_body := VObject sample_trip_props |}
  = (access_denied, sample_db).
Proof.
  destruct (refused_requests_do_nothing sample_host "secret" sample_db sample_world
              {| authorization := None; req_body := VObject sample_trip_props |}
              access_denied) as (_ & Hsave & _).
  - reflexivity.
  - exact Hsave.
Defined.

Lemma save_travel_requires_all_fields_witness :
  save_travel sample_host "secret" sample_db sample_world
    (bearer sample_token (VObject sample_free_trip))
  = (all_fields_required, sample_db).
Proof.
  apply (save_travel_requires_all_fields sample_host "secret" sample_db sample_world _
           sample_claims sample_free_trip); vm_compute; reflexivity.
Defined.

Lemma saved_trip_shows_in_own_history_witness :
  exists d1,
    save_travel sample_host "secret" sample_db sample_world sample_save
    = (json 201 [ ("message", VStr "Travel data saved successfully!") ], d1) /\
    exists l t,
      travel_history sample_host "secret" d1 sample_world (bearer sample_token VNull)
      = (Sent {| status := 200; body := VArray (map travel_document l) |}, d1) /\
      In t l /\ travel_destination t = Some "Goa".
Proof.
  destruct (saved_trip_shows_in_own_history sample_host "secret" sample_db sample_world
              sample_save sample_claims sample_trip_props "Goa" 5000%float 2%float)
    as [Hsave Hhistory];
    try discriminate; try (vm_compute; reflexivity).
  eexists. split; [exact Hsave|].
  destruct (Hhistory sample_world (bearer sample_token VNull) sample_claims)
    as [Hown _]; [vm_compute; reflexivity|].
  destruct (Hown eq_refl) as (l & Hrun & Hin).
  eexists l, _. split; [exact Hrun|]. split; [exact Hin|reflexivity].
Defined.

Lemma emails_stay_distinct_witness :
  NoDup (map user_email
           (users (snd (signup sample_host sample_db
                          {| now := 1700000005000%N; salt := "s5lt"; fresh := 8%N |}
                          sample_second_signup)))) /\
  length (users (snd (signup sample_host sample_db
                        {| now := 1700000005000%N; salt := "s5lt"; fresh := 8%N |}
                        sample_second_signup))) = 2%nat.
Proof.
  split; [|vm_compute; reflexivity].
  apply (emails_stay_distinct sample_host sample_db).
  vm_compute. apply NoDup_singleton.
Defined.

Lemma user_data_is_the_token_user_witness :
  exists document,
    user_data sample_host "secret" sample_db sample_world (bearer sample_token VNull)
    = (Sent {| status := 200; body := document |}, sample_db) /\
    field "name" document = VStr "Asha".
Proof.
  destruct (user_data_is_the_token_user sample_host "secret" sample_db sample_world
              (bearer sample_token VNull) sample_claims) as [_ Hfound].
  - vm_compute. reflexivity.
  - edestruct Hfound as (_ & _ & document & Hrun & _ & Hname & _).
    + vm_compute. reflexivity.
    + exists document. split; [exact Hrun|exact Hname].
Defined.
